(** * Featured recipe 6, "Getting started with Vispy"

    A shallow embedding of the code cells of [featured/06_vispy.ipynb]:
    the two GLSL shaders, the NumPy expression that builds the vertex
    data, the [gloo.Program] object and its binding, the two canvas
    callbacks and the event loop that invokes them.

    Scalars (Python floats, GLSL [float]) are exact rationals [Q], with
    the one rounded computation of the script, [linspace], repeated in
    binary64; Python integers are [Z].  Python exceptions are values of
    [exn]; code that can raise returns in [result] or runs in the monad
    [M]. *)

From Stdlib Require Import QArith Lqa Ascii Floats Uint63.
From stdpp Require Import base option list gmap strings.

Open Scope Q_scope.

(** ** Python exceptions and results *)

Inductive exn : Type :=
| CompileError
| RuntimeError
| ValueError
| KeyError
| TypeError
| AttributeError
| NameError.

Global Instance exn_eq_dec : EqDecision exn.
Proof. solve_decision. Defined.

Definition result (A : Type) : Type := exn + A.

(** Sequencing of two steps that can raise. *)
Definition rbind {A B} (r : result A) (k : A → result B) : result B :=
  match r with
  | inl e => inl e
  | inr a => k a
  end.

(** ** The shader sources (cells 3 and 4)

    Both are triple-quoted Python literals: the text starts with the line
    feed that follows the opening quotes and ends with the line feed
    before the closing ones. *)

Definition LF : string := String "010"%char EmptyString.

Definition vertex : string :=
  LF +:+ "attribute vec2 a_position;" +:+ LF
     +:+ "void main (void)" +:+ LF
     +:+ "{" +:+ LF
     +:+ "    gl_Position = vec4(a_position, 0.0, 1.0);" +:+ LF
     +:+ "}" +:+ LF.

Definition fragment : string :=
  LF +:+ "void main()" +:+ LF
     +:+ "{" +:+ LF
     +:+ "    gl_FragColor = vec4(0.0, 0.0, 0.0, 1.0);" +:+ LF
     +:+ "}" +:+ LF.

(** ** The shaders as functions

    Each [main] reads its inputs and writes one built-in output
    ([gl_Position], [gl_FragColor]); the function returns that output. *)

Module GLSL.

Record vec2 : Type := Vec2 { x2 : Q; y2 : Q }.
Record vec4 : Type := Vec4 { x4 : Q; y4 : Q; z4 : Q; w4 : Q }.

(** The constructor [vec4(v, z, w)] with [v] a [vec2]. *)
Definition vec4_of_vec2 (v : vec2) (z w : Q) : vec4 :=
  Vec4 (x2 v) (y2 v) z w.

(** [gl_Position = vec4(a_position, 0.0, 1.0);] *)
Definition vertex_main (a_position : vec2) : vec4 :=
  vec4_of_vec2 a_position 0 1.

(** [gl_FragColor = vec4(0.0, 0.0, 0.0, 1.0);] *)
Definition fragment_main : vec4 := Vec4 0 0 0 1.

(** Modelled from the spec: the number of components of an attribute
    type, a fact of the shading language. *)
Definition components (ty : string) : option nat :=
  if decide (ty = "float") then Some 1%nat
  else if decide (ty = "vec2") then Some 2%nat
  else if decide (ty = "vec3") then Some 3%nat
  else if decide (ty = "vec4") then Some 4%nat
  else None.

(** Modelled from the spec: the lexing of a shader source by the
    binding, as far as declarations need it.  Punctuation separates words
    like white space does. *)
Definition is_punct (c : ascii) : bool :=
  match c with
  | ";" | "(" | ")" | "{" | "}" | "," | "=" => true
  | _ => false
  end%char.

(** Modelled from the spec: punctuation replaced by blanks. *)
Fixpoint blank_punct (s : string) : string :=
  match s with
  | EmptyString => EmptyString
  | String c r => String (if is_punct c then " "%char else c) (blank_punct r)
  end.

(** Modelled from the spec: the words of a shader source. *)
Definition tokens (s : string) : list string := String.words (blank_punct s).

(** Modelled from the spec: the search of the binding for the
    declarations [attribute <type> <name>;] in a token stream, as pairs
    (name, type). *)
Fixpoint declared (toks : list string) : list (string * string) :=
  match toks with
  | [] => []
  | q :: rest =>
      match rest with
      | ty :: name :: _ =>
          if decide (q = "attribute") then (name, ty) :: declared rest
          else declared rest
      | _ => declared rest
      end
  end.

(** Modelled from the spec: the attributes a shader source declares. *)
Definition attributes (src : string) : list (string * string) :=
  declared (tokens src).

End GLSL.


(** ** NumPy: the three library calls of cell 6

    NumPy is not part of the repository.  The spec's data model
    (section 3) and external interfaces (section 6) give the result, an
    array of shape (N, 2) with float components; the values follow the
    library's documented formulas. *)

Module Numpy.

Inductive dtype : Type := int64 | float64.

Global Instance dtype_eq_dec : EqDecision dtype.
Proof. solve_decision. Defined.

Definition promote (a b : dtype) : dtype :=
  match a, b with
  | int64, int64 => int64
  | _, _ => float64
  end.

(** One-dimensional and two-dimensional arrays. *)
Record vector : Type := Vector { v_dtype : dtype; v_data : list Q }.
Record matrix : Type := Matrix { m_dtype : dtype; m_rows : list (list Q) }.

(** [a.shape == (n, m)] *)
Definition has_shape (a : matrix) (n m : nat) : bool :=
  bool_decide (length (m_rows a) = n)
  && forallb (λ row, bool_decide (length row = m)) (m_rows a).

(** Modelled from the spec: [np.linspace(start, stop, num)], a NumPy
    function.  [num] evenly spaced values [start + i * step] with
    [step = (stop - start) / (num - 1)], end point included. *)
Definition linspace (start stop : Q) (num : nat) : vector :=
  let step := (stop - start) / inject_Z (Z.of_nat num - 1) in
  Vector float64
    (map (λ i, start + inject_Z (Z.of_nat i) * step) (seq 0 num)).

(** Modelled from the spec: the state of NumPy's global generator, as
    the raw draws it will give. *)
Definition rng : Type := nat → N.

(** Modelled from the spec: NumPy's sample of the half-open unit
    interval, the low 53 bits of a draw over [2^53]. *)
Definition random_sample (k : N) : Q :=
  inject_Z (Z.of_N (k mod 2 ^ 53)) / inject_Z (2 ^ 53).

(** Modelled from the spec: [np.random.uniform(low, high, size)], a
    NumPy function.  [size] values [low + (high - low) * u], one sample
    [u] of the unit interval each. *)
Definition uniform (low high : Q) (size : nat) (g : rng) : vector :=
  Vector float64
    (map (λ i, low + (high - low) * random_sample (g i)) (seq 0 size)).

(** Modelled from the spec: [np.c_[a, b]], a NumPy object, for
    one-dimensional [a] and [b].  The two arrays side by side as the
    columns of an array of shape (N, 2); their lengths must agree. *)
Definition c_ (a b : vector) : result matrix :=
  if decide (length (v_data a) = length (v_data b))
  then inr (Matrix (promote (v_dtype a) (v_dtype b))
                   (zip_with (λ u v, [u; v]) (v_data a) (v_data b)))
  else inl ValueError.

End Numpy.

(** ** The rounded values of [linspace]

    NumPy computes in binary64.  Of the two columns only [linspace]
    rounds: [step] is the rounded quotient and each value the rounded sum
    of a rounded product, the last one being set to [stop].  (The column
    of [uniform(-0.5, +0.5)] is exact: [-0.5 + k / 2^53] with [k < 2^53]
    is a binary64 number.) *)

Module Binary64.

(** Modelled from the spec: [np.linspace(start, stop, num)] as NumPy
    evaluates it, every operation rounded to binary64. *)
Definition linspace (start stop : float) (num : nat) : list float :=
  let step := PrimFloat.div (PrimFloat.sub stop start)
                            (PrimFloat.of_uint63 (Uint63.of_Z (Z.of_nat num - 1))) in
  map (λ i, if decide (S i = num) then stop
            else PrimFloat.add
                   (PrimFloat.mul (PrimFloat.of_uint63 (Uint63.of_Z (Z.of_nat i))) step)
                   start)
      (seq 0 num).

(** [-1.0 <= v <= 1.0] *)
Definition in_unit (v : float) : bool :=
  PrimFloat.leb (-1)%float v && PrimFloat.leb v 1%float.

End Binary64.

(** ** The graphics binding: programs, commands, primitives

    [vispy.gloo] and the OpenGL driver behind it are not part of the
    repository.  Section 4.1 of the spec gives the contract of the shader
    program (two source texts; [CompileError] on invalid syntax;
    [RuntimeError] from [draw] when a referenced attribute is unbound),
    section 3 the binding invariant (no partial binding), and the
    notebook's own text ("How it works") the pipeline and the primitive
    types. *)

Module Gloo.

(** Modelled from the spec: the class [gloo.Program].  A program owns
    its two sources and the bindings of attribute names to buffers. *)
Record Program : Type := MkProgram {
  vert : string;
  frag : string;
  bound : gmap string Numpy.matrix
}.

(** Modelled from the spec: the attributes the shaders of a program
    reference, those they declare, with their types. *)
Definition referenced (p : Program) : list (string * string) :=
  GLSL.attributes (vert p) ++ GLSL.attributes (frag p).

(** Modelled from the spec: the primitive types the notebook names,
    ['points'], ['line_strip'] and ['triangles']. *)
Inductive topology : Type := points | line_strip | triangles.

(** Modelled from the spec: the commands that reach the graphics API. *)
Inductive call : Type :=
| Compile (v f : string)
| Upload (name : string) (data : Numpy.matrix)
| Viewport (x y w h : Z)
| Clear (color : GLSL.vec4)
| DrawArrays (mode : topology) (attribs : gmap string Numpy.matrix).

Inductive primitive : Type :=
| Point (a : GLSL.vec4)
| Segment (a b : GLSL.vec4)
| Triangle (a b c : GLSL.vec4).

(** Modelled from the spec: primitive assembly for ['line_strip'],
    done by the GPU; the notebook describes it: run through all vertices
    and draw a segment from one point to the next. *)
Fixpoint strip (vs : list GLSL.vec4) : list primitive :=
  match vs with
  | a :: rest =>
      match rest with
      | b :: _ => Segment a b :: strip rest
      | [] => []
      end
  | [] => []
  end.

(** Modelled from the spec: primitive assembly for ['triangles'], done
    by the GPU; the notebook describes it: one triangle for every triplet
    of points. *)
Fixpoint triplets (vs : list GLSL.vec4) : list primitive :=
  match vs with
  | a :: b :: c :: rest => Triangle a b c :: triplets rest
  | _ => []
  end.

Definition assemble (mode : topology) (vs : list GLSL.vec4) : list primitive :=
  match mode with
  | points => map Point vs
  | line_strip => strip vs
  | triangles => triplets vs
  end.

(** Modelled from the spec: the fetch of a [vec2] attribute from one
    row of its buffer, done by the GPU; components the row lacks read as
    zero.  The values are handed on as they are: the rounding to the
    float grid of the attribute is outside the model, so what is stated
    of the shader's inputs are closed bounds, which rounding keeps. *)
Definition fetch_vec2 (row : list Q) : GLSL.vec2 :=
  GLSL.Vec2 (nth 0 row 0) (nth 1 row 0).

(** Modelled from the spec: the vertex stage of the pipeline, run by
    the GPU.  The [main] of the vertex shader once per row of the buffer
    bound to [a_position]. *)
Definition vertex_stage (attribs : gmap string Numpy.matrix) : list GLSL.vec4 :=
  match attribs !! "a_position" with
  | Some buf => map (λ row, GLSL.vertex_main (fetch_vec2 row)) (Numpy.m_rows buf)
  | None => []
  end.

(** Modelled from the spec: the state of the rendering surface. *)
Record context : Type := Context {
  viewport : option (Z * Z * Z * Z);
  background : option GLSL.vec4;
  picture : list (primitive * GLSL.vec4)
}.

Definition fresh : context := Context None None [].

(** Modelled from the spec: what a command does to the surface, the
    work of the graphics API.  [Clear] fills it with one colour,
    [DrawArrays] adds the assembled primitives in the colour the fragment
    stage gives. *)
Definition exec (k : context) (c : call) : context :=
  match c with
  | Compile _ _ | Upload _ _ => k
  | Viewport x y w h => Context (Some (x, y, w, h)) (background k) (picture k)
  | Clear color => Context (viewport k) (Some color) []
  | DrawArrays mode attribs =>
      Context (viewport k) (background k)
              (picture k ++ map (λ pr, (pr, GLSL.fragment_main))
                                (assemble mode (vertex_stage attribs)))
  end.

Definition render (cs : list call) : context := fold_left exec cs fresh.

End Gloo.

(** ** Program state and the monad of the script

    The module-level variable [program] (unset until cell 5 assigns it)
    and the commands issued so far, oldest first. *)

Record state : Type := State {
  program : option Gloo.Program;
  calls : list Gloo.call
}.

(** A computation returns a value or raises, and leaves a state either
    way. *)
Definition M (A : Type) : Type := state → result A * state.

Definition ret {A} (a : A) : M A := λ s, (inr a, s).

Definition bind {A B} (m : M A) (k : A → M B) : M B :=
  λ s, match m s with
       | (inl e, s') => (inl e, s')
       | (inr a, s') => k a s'
       end.

Definition raise {A} (e : exn) : M A := λ s, (inl e, s).

Definition lift {A} (r : result A) : M A := λ s, (r, s).

Notation "x <- m ;; k" := (bind m (λ x, k))
  (at level 100, m at next level, right associativity).
Notation "m ;; k" := (bind m (λ _, k))
  (at level 100, right associativity).

(** One more command reaches the graphics API. *)
Definition emit (c : Gloo.call) : M unit :=
  λ s, (inr tt, State (program s) (calls s ++ [c])).

(** Reading and assigning the global [program]. *)
Definition get_program : M Gloo.Program :=
  λ s, match program s with
       | Some p => (inr p, s)
       | None => (inl NameError, s)
       end.

Definition set_program (p : Gloo.Program) : M unit :=
  λ s, (inr tt, State (Some p) (calls s)).

(** [for a in l: f(a)] *)
Fixpoint for_each {A} (f : A → M unit) (l : list A) : M unit :=
  match l with
  | [] => ret tt
  | a :: l => f a ;; for_each f l
  end.

(** ** The operations of [gloo] the script calls *)

(** Modelled from the spec: the constructor [gloo.Program(v, f)].  The
    sources go to the driver, whose verdict on their syntax is [glsl_ok];
    invalid syntax raises [CompileError]. *)
Definition Program_new (glsl_ok : string → bool) (v f : string) : M Gloo.Program :=
  emit (Gloo.Compile v f) ;;
  if glsl_ok v && glsl_ok f then ret (Gloo.MkProgram v f ∅)
  else raise CompileError.

(** Modelled from the spec: [Program.__setitem__], behind
    [program[name] = data].  [name] must be an attribute of the shaders
    and every row of [data] must have as many components as its type
    (no partial binding); the spec names no exception for either
    failure, [KeyError] and [ValueError] are Python's usual ones. *)
Definition setitem (name : string) (data : Numpy.matrix) : M unit :=
  p <- get_program ;;
  match (list_to_map (Gloo.referenced p) : gmap string string) !! name with
  | None => raise KeyError
  | Some ty =>
      match GLSL.components ty with
      | None => raise ValueError
      | Some n =>
          if forallb (λ row, bool_decide (length row = n)) (Numpy.m_rows data)
          then emit (Gloo.Upload name data) ;;
               set_program (Gloo.MkProgram (Gloo.vert p) (Gloo.frag p)
                                           (<[name := data]> (Gloo.bound p)))
          else raise ValueError
      end
  end.

(** Modelled from the spec: the method [Program.draw(mode)].  It
    raises [RuntimeError] if an attribute the shaders reference is
    unbound and otherwise issues the draw over the bound buffers. *)
Definition draw (mode : Gloo.topology) : M unit :=
  p <- get_program ;;
  if forallb (λ a, bool_decide (is_Some (Gloo.bound p !! a.1))) (Gloo.referenced p)
  then emit (Gloo.DrawArrays mode (Gloo.bound p))
  else raise RuntimeError.

(** Modelled from the spec: [gloo.set_viewport(x, y, w, h)], which
    passes the rectangle on to the graphics API. *)
Definition set_viewport (x y w h : Z) : M unit := emit (Gloo.Viewport x y w h).

(** Modelled from the spec: [gloo.clear(color)], which passes the
    colour on to the graphics API. *)
Definition clear (color : GLSL.vec4) : M unit := emit (Gloo.Clear color).

(** ** Events, callbacks and the canvas *)

(** Modelled from the spec: the event objects the windowing backend
    delivers; a resize event carries the new size (width, height) in its
    attribute [size]. *)
Inductive event : Type :=
| ResizeEvent (size : Z * Z)
| DrawEvent
| MouseMoveEvent
| KeyPressEvent.

(** [event.type] *)
Definition ev_type (e : event) : string :=
  match e with
  | ResizeEvent _ => "resize"
  | DrawEvent => "draw"
  | MouseMoveEvent => "mouse_move"
  | KeyPressEvent => "key_press"
  end.

Inductive value : Type :=
| VInt (n : Z)
| VEvent (e : event).

(** [value.size] *)
Definition getattr_size (v : value) : M (Z * Z) :=
  match v with
  | VEvent (ResizeEvent size) => ret size
  | _ => raise AttributeError
  end.

(** A function defined with [def]: its name, its parameters and its body
    over the arguments in positional order. *)
Record pyfunc : Type := Def {
  fn_name : string;
  fn_params : list string;
  fn_body : list value → M unit
}.

(** A call with positional arguments: the count must match. *)
Definition call_function (f : pyfunc) (args : list value) : M unit :=
  if decide (length args = length (fn_params f)) then fn_body f args
  else raise TypeError.

(** Cell 7:
    [def on_resize(event): gloo.set_viewport(0, 0, *event.size)] *)
Definition on_resize : pyfunc :=
  Def "on_resize" ["event"]
      (λ args,
         match args with
         | [event] =>
             size <- getattr_size event ;;
             set_viewport 0 0 size.1 size.2
         | _ => raise TypeError
         end).

Definition white : GLSL.vec4 := GLSL.Vec4 1 1 1 1.

(** Cell 8:
    [def on_draw(event): gloo.clear((1,1,1,1)); program.draw('line_strip')] *)
Definition on_draw : pyfunc :=
  Def "on_draw" ["event"]
      (λ args,
         match args with
         | [event] =>
             clear white ;;
             draw Gloo.line_strip
         | _ => raise TypeError
         end).

(** Modelled from the spec: the class [app.Canvas].  For each event
    type, the callbacks the script connected to it.  [keys] is kept as
    given; what ['interactive'] asks of the canvas itself (Escape closes
    it, which ends the event loop) is outside the model, and the events
    of a run are those delivered while the canvas is open. *)
Record canvas : Type := MkCanvas {
  keys : string;
  connections : gmap string (list pyfunc)
}.

Definition Canvas (keys : string) : canvas := MkCanvas keys ∅.

Fixpoint strip_prefix (pre s : string) : option string :=
  match pre, s with
  | EmptyString, _ => Some s
  | String a pre, String b s => if decide (a = b) then strip_prefix pre s else None
  | String _ _, EmptyString => None
  end.

(** Modelled from the spec: the method [c.connect(f)], also used as a
    decorator.  A function named [on_X] is connected to event [X]. *)
Definition connect (f : pyfunc) (c : canvas) : result canvas :=
  match strip_prefix "on_" (fn_name f) with
  | Some ev =>
      inr (MkCanvas (keys c)
                    (<[ev := f :: default [] (connections c !! ev)]> (connections c)))
  | None => inl ValueError
  end.

(** Modelled from the spec: the delivery of one event by the backend.
    Every callback connected to its type is called with the event object
    as its one argument. *)
Definition dispatch (c : canvas) (e : event) : M unit :=
  for_each (λ f, call_function f [VEvent e]) (default [] (connections c !! ev_type e)).

(** Modelled from the spec: [app.run()], the event loop of the
    backend, over the events it delivers. *)
Definition run (c : canvas) (events : list event) : M unit :=
  for_each (dispatch c) events.

(** ** The script, cells 2 to 9 *)

Section Script.

Variable glsl_ok : string → bool.
Variable g : Numpy.rng.

Definition script : M canvas :=
  let c := Canvas "interactive" in
  p <- Program_new glsl_ok vertex fragment ;;
  set_program p ;;
  data <- lift (Numpy.c_ (Numpy.linspace (-1) 1 1000)
                         (Numpy.uniform (-(1 # 2)) (1 # 2) 1000 g)) ;;
  setitem "a_position" data ;;
  c <- lift (connect on_resize c) ;;
  c <- lift (connect on_draw c) ;;
  ret c.

Definition main (events : list event) : M unit :=
  c <- script ;;
  run c events.

End Script.

(** The state in which the script starts: no global set, no command
    issued. *)
Definition boot : state := State None [].

(** ** A sample driver and a sample generator

    Used to run the script on concrete inputs: a front end that accepts a
    text when its parentheses and braces match, and a generator whose
    i-th draw is a multiple of a fixed odd number. *)

Fixpoint brackets_match (opened : list ascii) (s : string) : bool :=
  match s with
  | EmptyString => bool_decide (opened = [])
  | String c r =>
      if decide (c = "("%char) then brackets_match (c :: opened) r
      else if decide (c = "{"%char) then brackets_match (c :: opened) r
      else if decide (c = ")"%char) then
        match opened with
        | o :: rest => bool_decide (o = "("%char) && brackets_match rest r
        | [] => false
        end
      else if decide (c = "}"%char) then
        match opened with
        | o :: rest => bool_decide (o = "{"%char) && brackets_match rest r
        | [] => false
        end
      else brackets_match opened r
  end.

Definition sample_driver (src : string) : bool := brackets_match [] src.

Definition sample_rng : Numpy.rng := λ i, (N.of_nat i * 6364136223846793005)%N.

Definition sample_events : list event :=
  [ResizeEvent (800, 600)%Z; DrawEvent; MouseMoveEvent; DrawEvent].

(** ** What the script builds, written out

    The value of the expression of cell 6, the program, canvas and state
    at the end of cell 8, and the commands one delivered event adds. *)

Definition a_position_data (g : Numpy.rng) : Numpy.matrix :=
  let xs := Numpy.linspace (-1) 1 1000 in
  let ys := Numpy.uniform (-(1 # 2)) (1 # 2) 1000 g in
  Numpy.Matrix (Numpy.promote (Numpy.v_dtype xs) (Numpy.v_dtype ys))
               (zip_with (λ u v, [u; v]) (Numpy.v_data xs) (Numpy.v_data ys)).

Definition recipe_program (g : Numpy.rng) : Gloo.Program :=
  Gloo.MkProgram vertex fragment (<["a_position" := a_position_data g]> ∅).

Definition recipe_canvas : canvas :=
  MkCanvas "interactive" (<["draw" := [on_draw]]> (<["resize" := [on_resize]]> ∅)).

Definition recipe_state (g : Numpy.rng) : state :=
  State (Some (recipe_program g))
        [Gloo.Compile vertex fragment; Gloo.Upload "a_position" (a_position_data g)].

Definition frame_calls (attribs : gmap string Numpy.matrix) (e : event) : list Gloo.call :=
  match e with
  | ResizeEvent size => [Gloo.Viewport 0 0 size.1 size.2]
  | DrawEvent => [Gloo.Clear white; Gloo.DrawArrays Gloo.line_strip attribs]
  | MouseMoveEvent | KeyPressEvent => []
  end.

(** The script has run to the end of cell 8 without an exception. *)
Definition started (glsl_ok : string → bool) (g : Numpy.rng) (c : canvas) (s : state) : Prop :=
  script glsl_ok g boot = (inr c, s).

(** A vertex inside the normalized device coordinates. *)
Definition in_ndc (row : list Q) : Prop :=
  ∃ x y, row = [x; y] ∧ (-1 <= x ∧ x <= 1) ∧ (-1 <= y ∧ y <= 1).


(** In a command sequence, every draw comes right after a clear to
    white. *)
Definition draws_after_clear (cs : list Gloo.call) : Prop :=
  ∀ i mode attribs,
    cs !! i = Some (Gloo.DrawArrays mode attribs) →
    ∃ j, i = S j ∧ cs !! j = Some (Gloo.Clear white).

(** ** Events, commands and surfaces by kind

    What the properties of a whole run are stated with. *)

Definition is_resize_event (e : event) : bool :=
  match e with
  | ResizeEvent _ => true
  | _ => false
  end.

Definition is_draw_event (e : event) : bool :=
  match e with
  | DrawEvent => true
  | _ => false
  end.


(** The size of the last resize event of a sequence, if there is one. *)
Fixpoint last_resize (events : list event) : option (Z * Z) :=
  match events with
  | [] => None
  | e :: rest =>
      match last_resize rest with
      | Some size => Some size
      | None =>
          match e with
          | ResizeEvent size => Some size
          | _ => None
          end
      end
  end.

Definition is_compile_call (c : Gloo.call) : bool :=
  match c with
  | Gloo.Compile _ _ => true
  | _ => false
  end.

Definition is_upload_call (c : Gloo.call) : bool :=
  match c with
  | Gloo.Upload _ _ => true
  | _ => false
  end.

Definition is_viewport_call (c : Gloo.call) : bool :=
  match c with
  | Gloo.Viewport _ _ _ _ => true
  | _ => false
  end.

Definition is_clear_call (c : Gloo.call) : bool :=
  match c with
  | Gloo.Clear _ => true
  | _ => false
  end.

Definition is_draw_call (c : Gloo.call) : bool :=
  match c with
  | Gloo.DrawArrays _ _ => true
  | _ => false
  end.

(** The primitives one frame of the recipe puts on the surface, each
    with its colour. *)
Definition frame_picture (attribs : gmap string Numpy.matrix)
  : list (Gloo.primitive * GLSL.vec4) :=
  map (λ pr, (pr, GLSL.fragment_main))
      (Gloo.assemble Gloo.line_strip (Gloo.vertex_stage attribs)).

(** The surface after the commands of a run of the recipe. *)
Definition surface (c : canvas) (events : list event) (s : state) : Gloo.context :=
  Gloo.render (calls (run c events s).2).

(** * Properties *)

(** ** The declarations in the two sources *)

Example vertex_attributes : GLSL.attributes vertex = [("a_position", "vec2")].
Proof. vm_compute. reflexivity. Qed.

Example fragment_attributes : GLSL.attributes fragment = [].
Proof. vm_compute. reflexivity. Qed.

(** ** Arithmetic of the vertex data *)

Lemma unit_fraction (i m : Z) :
  (0 ≤ i ≤ m)%Z → 0 <= inject_Z i / inject_Z m ∧ inject_Z i / inject_Z m <= 1.
Proof.
  intros [Hi Him].
  destruct (decide (m = 0%Z)) as [-> | Hm].
  - assert (i = 0%Z) as -> by lia. split; discriminate.
  - assert (0 < inject_Z m) as Hpos.
    { change 0 with (inject_Z 0). rewrite <- Zlt_Qlt. lia. }
    split.
    + apply Qle_shift_div_l; [exact Hpos |].
      rewrite Qmult_0_l. change 0 with (inject_Z 0). rewrite <- Zle_Qle. exact Hi.
    + apply Qle_shift_div_r; [exact Hpos |].
      rewrite Qmult_1_l. rewrite <- Zle_Qle. exact Him.
Qed.

(** A point a fraction [t] of the way from [a] to [b] lies between them. *)
Lemma between (a b t : Q) :
  a <= b → 0 <= t → t <= 1 → a <= a + (b - a) * t ∧ a + (b - a) * t <= b.
Proof. intros Hab Ht0 Ht1. split; nra. Qed.

Lemma linspace_bounds (start stop : Q) (num : nat) :
  start <= stop →
  Forall (λ v, start <= v ∧ v <= stop) (Numpy.v_data (Numpy.linspace start stop num)).
Proof.
  intros Hle. unfold Numpy.linspace. cbn [Numpy.v_data].
  apply Forall_forall. intros v Hv.
  apply list_elem_of_In, in_map_iff in Hv as (i & <- & Hi).
  apply in_seq in Hi.
  destruct (unit_fraction (Z.of_nat i) (Z.of_nat num - 1)) as [H0 H1]; [lia |].
  destruct (between start stop _ Hle H0 H1) as [Hlo Hhi].
  assert (start + inject_Z (Z.of_nat i) * ((stop - start) / inject_Z (Z.of_nat num - 1))
          == start + (stop - start) * (inject_Z (Z.of_nat i) / inject_Z (Z.of_nat num - 1)))
    as -> by (unfold Qdiv; ring).
  split; assumption.
Qed.

Lemma random_sample_unit (k : N) :
  0 <= Numpy.random_sample k ∧ Numpy.random_sample k < 1.
Proof.
  unfold Numpy.random_sample.
  assert (0 ≤ Z.of_N (k mod 2 ^ 53) < 2 ^ 53)%Z as [H0 H1].
  { split; [apply N2Z.is_nonneg |].
    change (2 ^ 53)%Z with (Z.of_N (2 ^ 53)). apply N2Z.inj_lt.
    apply N.mod_upper_bound. discriminate. }
  assert (0 < inject_Z (2 ^ 53)) as Hpos by reflexivity.
  split.
  - apply Qle_shift_div_l; [exact Hpos |].
    rewrite Qmult_0_l. change 0 with (inject_Z 0). rewrite <- Zle_Qle. exact H0.
  - apply Qlt_shift_div_r; [exact Hpos |].
    rewrite Qmult_1_l. rewrite <- Zlt_Qlt. exact H1.
Qed.

Lemma uniform_bounds (low high : Q) (size : nat) (g : Numpy.rng) :
  low <= high →
  Forall (λ v, low <= v ∧ v <= high) (Numpy.v_data (Numpy.uniform low high size g)).
Proof.
  intros Hle. unfold Numpy.uniform. cbn [Numpy.v_data].
  apply Forall_forall. intros v Hv.
  apply list_elem_of_In, in_map_iff in Hv as (i & <- & _).
  destruct (random_sample_unit (g i)) as [H0 H1].
  apply between; [assumption | assumption | apply Qlt_le_weak; assumption].
Qed.

(** The upper end is excluded when the interval is not empty. *)
Lemma uniform_half_open (low high : Q) (size : nat) (g : Numpy.rng) :
  low < high →
  Forall (λ v, low <= v ∧ v < high) (Numpy.v_data (Numpy.uniform low high size g)).
Proof.
  intros Hlt. unfold Numpy.uniform. cbn [Numpy.v_data].
  apply Forall_forall. intros v Hv.
  apply list_elem_of_In, in_map_iff in Hv as (i & <- & _).
  destruct (random_sample_unit (g i)) as [H0 H1].
  assert (0 <= (high - low) * Numpy.random_sample (g i)) as Hlo
    by (apply Qmult_le_0_compat; lra).
  assert (0 < (high - low) * (1 - Numpy.random_sample (g i))) as Hhi
    by (apply Qmult_lt_0_compat; lra).
  split; lra.
Qed.

Lemma length_linspace (start stop : Q) (num : nat) :
  length (Numpy.v_data (Numpy.linspace start stop num)) = num.
Proof. unfold Numpy.linspace. cbn [Numpy.v_data]. by rewrite length_map, length_seq. Qed.

Lemma length_uniform (low high : Q) (size : nat) (g : Numpy.rng) :
  length (Numpy.v_data (Numpy.uniform low high size g)) = size.
Proof. unfold Numpy.uniform. cbn [Numpy.v_data]. by rewrite length_map, length_seq. Qed.

(** In binary64 too, none of the 1000 values of [linspace(-1.0, +1.0,
    1000)] leaves the interval. *)
Lemma linspace_binary64_bounds :
  forallb Binary64.in_unit (Binary64.linspace (-1)%float 1%float 1000) = true.
Proof. vm_compute. reflexivity. Qed.

(** ** The steps of the script *)

Lemma referenced_recipe (b : gmap string Numpy.matrix) :
  Gloo.referenced (Gloo.MkProgram vertex fragment b) = [("a_position", "vec2")].
Proof.
  unfold Gloo.referenced. cbn [Gloo.vert Gloo.frag].
  by rewrite vertex_attributes, fragment_attributes.
Qed.

Lemma Program_new_accepts (glsl_ok : string → bool) (v f : string) (s : state) :
  glsl_ok v = true → glsl_ok f = true →
  Program_new glsl_ok v f s
  = (inr (Gloo.MkProgram v f ∅), State (program s) (calls s ++ [Gloo.Compile v f])).
Proof. intros Hv Hf. unfold Program_new, bind, emit, ret. by rewrite Hv, Hf. Qed.

Lemma Program_new_rejects (glsl_ok : string → bool) (v f : string) (s : state) :
  glsl_ok v && glsl_ok f = false →
  Program_new glsl_ok v f s
  = (inl CompileError, State (program s) (calls s ++ [Gloo.Compile v f])).
Proof. intros H. unfold Program_new, bind, emit, raise. by rewrite H. Qed.

Lemma rows_of_columns (a b : list Q) :
  Forall (λ row, length row = 2%nat) (zip_with (λ u v, [u; v]) a b).
Proof.
  revert b. induction a as [| u a IH]; intros [| v b]; cbn; constructor; auto.
Qed.

Lemma c__recipe (g : Numpy.rng) :
  Numpy.c_ (Numpy.linspace (-1) 1 1000) (Numpy.uniform (-(1 # 2)) (1 # 2) 1000 g)
  = inr (a_position_data g).
Proof.
  unfold Numpy.c_. rewrite length_linspace, length_uniform.
  rewrite decide_True by reflexivity. reflexivity.
Qed.

Lemma setitem_a_position (b : gmap string Numpy.matrix) (cs : list Gloo.call)
    (data : Numpy.matrix) :
  Forall (λ row, length row = 2%nat) (Numpy.m_rows data) →
  setitem "a_position" data (State (Some (Gloo.MkProgram vertex fragment b)) cs)
  = (inr tt, State (Some (Gloo.MkProgram vertex fragment (<["a_position" := data]> b)))
                   (cs ++ [Gloo.Upload "a_position" data])).
Proof.
  intros Hrows. unfold setitem, bind, get_program. cbn [program].
  rewrite referenced_recipe.
  change ((list_to_map [("a_position", "vec2")] : gmap string string) !! "a_position")
    with (Some "vec2").
  cbv beta iota. change (GLSL.components "vec2") with (Some 2%nat). cbv beta iota.
  assert (forallb (λ row, bool_decide (length row = 2%nat)) (Numpy.m_rows data) = true) as ->.
  { apply forallb_forall. intros row Hin. apply bool_decide_eq_true.
    eapply Forall_forall in Hrows; [exact Hrows | by apply list_elem_of_In]. }
  reflexivity.
Qed.

Lemma setitem_partial (b : gmap string Numpy.matrix) (cs : list Gloo.call)
    (data : Numpy.matrix) :
  ¬ Forall (λ row, length row = 2%nat) (Numpy.m_rows data) →
  setitem "a_position" data (State (Some (Gloo.MkProgram vertex fragment b)) cs)
  = (inl ValueError, State (Some (Gloo.MkProgram vertex fragment b)) cs).
Proof.
  intros Hrows. unfold setitem, bind, get_program. cbn [program].
  rewrite referenced_recipe.
  change ((list_to_map [("a_position", "vec2")] : gmap string string) !! "a_position")
    with (Some "vec2").
  cbv beta iota. change (GLSL.components "vec2") with (Some 2%nat). cbv beta iota.
  destruct (forallb _ _) eqn:Hall; [| reflexivity].
  exfalso. apply Hrows, Forall_forall. intros row Hin.
  rewrite forallb_forall in Hall.
  apply list_elem_of_In, Hall in Hin. by apply bool_decide_eq_true in Hin.
Qed.

Lemma connect_recipe :
  rbind (connect on_resize (Canvas "interactive")) (connect on_draw) = inr recipe_canvas.
Proof. vm_compute. reflexivity. Qed.

Lemma script_accepted (glsl_ok : string → bool) (g : Numpy.rng) :
  glsl_ok vertex = true → glsl_ok fragment = true →
  script glsl_ok g boot = (inr recipe_canvas, recipe_state g).
Proof.
  intros Hv Hf. unfold script, bind at 1.
  rewrite (Program_new_accepts _ _ _ _ Hv Hf).
  unfold bind at 1, set_program. cbn [calls program boot app].
  unfold bind at 1, lift. rewrite c__recipe.
  unfold bind at 1. rewrite setitem_a_position by apply rows_of_columns.
  pose proof connect_recipe as Hc. unfold rbind in Hc.
  unfold bind at 1. destruct (connect on_resize (Canvas "interactive")) as [e | c1]; [discriminate |].
  unfold bind at 1. rewrite Hc. reflexivity.
Qed.

Lemma script_rejected (glsl_ok : string → bool) (g : Numpy.rng) :
  glsl_ok vertex && glsl_ok fragment = false →
  script glsl_ok g boot = (inl CompileError, State None [Gloo.Compile vertex fragment]).
Proof.
  intros H. unfold script, bind at 1.
  by rewrite (Program_new_rejects _ _ _ _ H).
Qed.

Lemma started_inv (glsl_ok : string → bool) (g : Numpy.rng) (c : canvas) (s : state) :
  started glsl_ok g c s →
  glsl_ok vertex = true ∧ glsl_ok fragment = true ∧ c = recipe_canvas ∧ s = recipe_state g.
Proof.
  unfold started. intros H.
  destruct (glsl_ok vertex && glsl_ok fragment) eqn:Hok.
  - apply andb_true_iff in Hok as [Hv Hf].
    rewrite (script_accepted _ _ Hv Hf) in H. by simplify_eq.
  - rewrite (script_rejected _ _ Hok) in H. discriminate.
Qed.

(** ** Drawing and the event loop *)

Lemma draw_bound (mode : Gloo.topology) (b : gmap string Numpy.matrix)
    (cs : list Gloo.call) :
  is_Some (b !! "a_position") →
  draw mode (State (Some (Gloo.MkProgram vertex fragment b)) cs)
  = (inr tt, State (Some (Gloo.MkProgram vertex fragment b))
                   (cs ++ [Gloo.DrawArrays mode b])).
Proof.
  intros Hb. unfold draw, bind, get_program. cbn [program].
  rewrite referenced_recipe. cbn [forallb fst Gloo.bound].
  by rewrite bool_decide_eq_true_2.
Qed.

Lemma draw_unbound (mode : Gloo.topology) (p : Gloo.Program) (cs : list Gloo.call)
    (a : string * string) :
  a ∈ Gloo.referenced p → Gloo.bound p !! a.1 = None →
  draw mode (State (Some p) cs) = (inl RuntimeError, State (Some p) cs).
Proof.
  intros Hin Hnone. unfold draw, bind, get_program. cbn [program].
  destruct (forallb _ _) eqn:Hall; [| reflexivity].
  rewrite forallb_forall in Hall.
  apply list_elem_of_In, Hall, bool_decide_eq_true in Hin.
  rewrite Hnone in Hin. by destruct Hin.
Qed.

Lemma handlers_recipe (e : event) :
  default [] (connections recipe_canvas !! ev_type e)
  = match e with
    | ResizeEvent _ => [on_resize]
    | DrawEvent => [on_draw]
    | MouseMoveEvent | KeyPressEvent => []
    end.
Proof. destruct e; vm_compute; reflexivity. Qed.

Lemma dispatch_recipe (b : gmap string Numpy.matrix) (cs : list Gloo.call) (e : event) :
  is_Some (b !! "a_position") →
  dispatch recipe_canvas e (State (Some (Gloo.MkProgram vertex fragment b)) cs)
  = (inr tt, State (Some (Gloo.MkProgram vertex fragment b)) (cs ++ frame_calls b e)).
Proof.
  intros Hb. unfold dispatch. rewrite handlers_recipe.
  destruct e as [[w h] | | |]; cbn [for_each frame_calls].
  - reflexivity.
  - unfold bind at 1. unfold call_function. cbn [on_draw fn_params fn_body length].
    rewrite decide_True by reflexivity.
    unfold bind at 1. unfold clear, emit. cbn [program calls].
    rewrite (draw_bound _ _ _ Hb). unfold ret.
    by rewrite <- app_assoc.
  - unfold ret. by rewrite app_nil_r.
  - unfold ret. by rewrite app_nil_r.
Qed.

Lemma run_recipe (b : gmap string Numpy.matrix) (events : list event)
    (cs : list Gloo.call) :
  is_Some (b !! "a_position") →
  run recipe_canvas events (State (Some (Gloo.MkProgram vertex fragment b)) cs)
  = (inr tt, State (Some (Gloo.MkProgram vertex fragment b))
                   (cs ++ concat (map (frame_calls b) events))).
Proof.
  intros Hb. unfold run. revert cs.
  induction events as [| e events IH]; intros cs; cbn [for_each map concat].
  - unfold ret. by rewrite app_nil_r.
  - unfold bind. rewrite (dispatch_recipe _ _ _ Hb), IH. by rewrite <- app_assoc.
Qed.

Lemma a_position_bound (g : Numpy.rng) :
  Gloo.bound (recipe_program g) !! "a_position" = Some (a_position_data g).
Proof. unfold recipe_program. cbn [Gloo.bound]. apply lookup_insert_eq. Qed.

Lemma run_started (g : Numpy.rng) (events : list event) :
  run recipe_canvas events (recipe_state g)
  = (inr tt, State (Some (recipe_program g))
                   (calls (recipe_state g)
                    ++ concat (map (frame_calls (Gloo.bound (recipe_program g))) events))).
Proof.
  unfold recipe_state, recipe_program. cbn [Gloo.bound calls]. apply run_recipe.
  rewrite lookup_insert_eq. by eexists.
Qed.

(** Every command of the event loop is a viewport change, a clear to
    white, or a draw of the bound attributes as a line strip. *)
Lemma frame_calls_elem (b : gmap string Numpy.matrix) (events : list event)
    (c : Gloo.call) :
  c ∈ concat (map (frame_calls b) events) →
  (∃ w h, c = Gloo.Viewport 0 0 w h) ∨ c = Gloo.Clear white
  ∨ c = Gloo.DrawArrays Gloo.line_strip b.
Proof.
  induction events as [| e events IH]; cbn [map concat].
  - intros H. by apply elem_of_nil in H.
  - rewrite elem_of_app. intros [H | H]; [| by apply IH].
    destruct e as [[w h] | | |]; cbn [frame_calls] in H.
    + apply list_elem_of_singleton in H as ->. left. by exists w, h.
    + apply elem_of_cons in H as [-> | H]; [by right; left |].
      apply list_elem_of_singleton in H as ->. by right; right.
    + by apply elem_of_nil in H.
    + by apply elem_of_nil in H.
Qed.

Lemma main_started (glsl_ok : string → bool) (g : Numpy.rng) (events : list event) :
  glsl_ok vertex = true → glsl_ok fragment = true →
  main glsl_ok g events boot
  = (inr tt, State (Some (recipe_program g))
                   (calls (recipe_state g)
                    ++ concat (map (frame_calls (Gloo.bound (recipe_program g))) events))).
Proof.
  intros Hv Hf. unfold main, bind.
  rewrite (script_accepted _ _ Hv Hf). apply run_started.
Qed.

Lemma main_rejected (glsl_ok : string → bool) (g : Numpy.rng) (events : list event) :
  glsl_ok vertex && glsl_ok fragment = false →
  main glsl_ok g events boot = (inl CompileError, State None [Gloo.Compile vertex fragment]).
Proof. intros H. unfold main, bind. by rewrite (script_rejected _ _ H). Qed.

Lemma columns_in_ndc (a b : list Q) :
  Forall (λ x, -1 <= x ∧ x <= 1) a → Forall (λ y, -1 <= y ∧ y <= 1) b →
  Forall in_ndc (zip_with (λ u v, [u; v]) a b).
Proof.
  intros Ha. revert b. induction Ha as [| x a Hx Ha IH]; intros b Hb.
  - constructor.
  - destruct Hb as [| y b Hy Hb]; cbn; constructor.
    + by exists x, y.
    + by apply IH.
Qed.

(** ** Primitive assembly and the shape of the data *)

Lemma length_strip (vs : list GLSL.vec4) :
  length (Gloo.strip vs) = (length vs - 1)%nat.
Proof.
  induction vs as [| a [| b rest] IH]; [reflexivity | reflexivity |].
  change (Gloo.strip (a :: b :: rest)) with (Gloo.Segment a b :: Gloo.strip (b :: rest)).
  cbn [length] in *. lia.
Qed.

Lemma lookup_strip (vs : list GLSL.vec4) (i : nat) (a b : GLSL.vec4) :
  vs !! i = Some a → vs !! S i = Some b → Gloo.strip vs !! i = Some (Gloo.Segment a b).
Proof.
  revert i. induction vs as [| v [| w rest] IH]; intros i Ha Hb.
  - discriminate.
  - destruct i; discriminate.
  - change (Gloo.strip (v :: w :: rest)) with (Gloo.Segment v w :: Gloo.strip (w :: rest)).
    destruct i as [| i].
    + cbn in Ha, Hb. by simplify_eq.
    + cbn [lookup list_lookup] in Ha, Hb |- *. by apply IH.
Qed.

Lemma lookup_map {A B} (f : A → B) (l : list A) (i : nat) :
  map f l !! i = f <$> l !! i.
Proof. revert i. induction l as [| a l IH]; intros [| i]; cbn; auto. Qed.

Lemma length_a_position_data (g : Numpy.rng) :
  length (Numpy.m_rows (a_position_data g)) = 1000%nat.
Proof.
  unfold a_position_data. cbn [Numpy.m_rows].
  by rewrite length_zip_with, length_linspace, length_uniform.
Qed.

Lemma length_vertex_stage (g : Numpy.rng) :
  length (Gloo.vertex_stage (Gloo.bound (recipe_program g))) = 1000%nat.
Proof.
  unfold Gloo.vertex_stage. rewrite a_position_bound.
  by rewrite length_map, length_a_position_data.
Qed.

Lemma has_shape_spec (a : Numpy.matrix) (n m : nat) :
  Numpy.has_shape a n m = true
  ↔ length (Numpy.m_rows a) = n ∧ Forall (λ row, length row = m) (Numpy.m_rows a).
Proof.
  unfold Numpy.has_shape. rewrite andb_true_iff, bool_decide_eq_true, forallb_forall.
  rewrite Forall_forall.
  split; intros [Hn Hrows]; (split; [exact Hn |]); intros row Hin.
  - apply list_elem_of_In, Hrows in Hin. by apply bool_decide_eq_true in Hin.
  - apply bool_decide_eq_true. by apply Hrows, list_elem_of_In.
Qed.

(** The commands of a run of the recipe, and what the draws among them
    carry. *)
Lemma run_draws (g : Numpy.rng) (events : list event) (mode : Gloo.topology)
    (attribs : gmap string Numpy.matrix) :
  Gloo.DrawArrays mode attribs ∈ calls (run recipe_canvas events (recipe_state g)).2 →
  mode = Gloo.line_strip ∧ attribs = Gloo.bound (recipe_program g).
Proof.
  rewrite run_started. cbn [snd calls recipe_state].
  rewrite elem_of_app. intros [H | H].
  - apply elem_of_cons in H as [H | H]; [discriminate |].
    apply list_elem_of_singleton in H. discriminate.
  - apply frame_calls_elem in H as [(w & h & H) | [H | H]]; [discriminate.. |].
    by simplify_eq.
Qed.

(** ** The surface after a run *)

Lemma exec_frame (b : gmap string Numpy.matrix) (e : event) (k : Gloo.context) :
  fold_left Gloo.exec (frame_calls b e) k
  = match e with
    | ResizeEvent size =>
        Gloo.Context (Some (0, 0, size.1, size.2)%Z) (Gloo.background k) (Gloo.picture k)
    | DrawEvent => Gloo.Context (Gloo.viewport k) (Some white) (frame_picture b)
    | MouseMoveEvent | KeyPressEvent => k
    end.
Proof. destruct e; reflexivity. Qed.

Lemma frames_viewport (b : gmap string Numpy.matrix) (events : list event)
    (k : Gloo.context) :
  Gloo.viewport (fold_left Gloo.exec (concat (map (frame_calls b) events)) k)
  = match last_resize events with
    | Some size => Some (0, 0, size.1, size.2)%Z
    | None => Gloo.viewport k
    end.
Proof.
  revert k. induction events as [| e events IH]; intros k; [reflexivity |].
  cbn [map concat last_resize]. rewrite fold_left_app, IH, exec_frame.
  destruct (last_resize events); [reflexivity |]. by destruct e.
Qed.

Lemma frames_picture (b : gmap string Numpy.matrix) (events : list event)
    (k : Gloo.context) :
  Gloo.picture (fold_left Gloo.exec (concat (map (frame_calls b) events)) k)
  = if existsb is_draw_event events then frame_picture b else Gloo.picture k.
Proof.
  revert k. induction events as [| e events IH]; intros k; [reflexivity |].
  cbn [map concat existsb]. rewrite fold_left_app, IH, exec_frame.
  destruct (existsb is_draw_event events); [by rewrite orb_true_r |].
  rewrite orb_false_r. by destruct e.
Qed.

Lemma frames_background (b : gmap string Numpy.matrix) (events : list event)
    (k : Gloo.context) :
  Gloo.background (fold_left Gloo.exec (concat (map (frame_calls b) events)) k)
  = if existsb is_draw_event events then Some white else Gloo.background k.
Proof.
  revert k. induction events as [| e events IH]; intros k; [reflexivity |].
  cbn [map concat existsb]. rewrite fold_left_app, IH, exec_frame.
  destruct (existsb is_draw_event events); [by rewrite orb_true_r |].
  rewrite orb_false_r. by destruct e.
Qed.

Lemma surface_recipe (g : Numpy.rng) (events : list event) :
  surface recipe_canvas events (recipe_state g)
  = fold_left Gloo.exec
              (concat (map (frame_calls (Gloo.bound (recipe_program g))) events))
              Gloo.fresh.
Proof.
  unfold surface. rewrite run_started. cbn [snd calls recipe_state].
  unfold Gloo.render. by rewrite fold_left_app.
Qed.

Lemma length_frame_picture (g : Numpy.rng) :
  length (frame_picture (Gloo.bound (recipe_program g))) = 999%nat.
Proof.
  unfold frame_picture. cbn [Gloo.assemble].
  by rewrite length_map, length_strip, length_vertex_stage.
Qed.

Lemma existsb_draw_without_resize (events : list event) :
  existsb is_draw_event (List.filter (λ e, negb (is_resize_event e)) events)
  = existsb is_draw_event events.
Proof.
  induction events as [| e events IH]; [reflexivity |].
  destruct e; cbn [List.filter is_resize_event negb existsb is_draw_event]; by rewrite IH.
Qed.

(** ** How many commands the events cost *)

Lemma count_frame_calls (b : gmap string Numpy.matrix) (events : list event) :
  let cs := concat (map (frame_calls b) events) in
  length (List.filter is_compile_call cs) = 0%nat
  ∧ length (List.filter is_upload_call cs) = 0%nat
  ∧ length (List.filter is_viewport_call cs)
    = length (List.filter is_resize_event events)
  ∧ length (List.filter is_clear_call cs) = length (List.filter is_draw_event events)
  ∧ length (List.filter is_draw_call cs) = length (List.filter is_draw_event events).
Proof.
  induction events as [| e events (IH1 & IH2 & IH3 & IH4 & IH5)]; [by repeat split |].
  cbn [map concat]. cbv zeta. rewrite !List.filter_app, !length_app.
  rewrite IH1, IH2, IH3, IH4, IH5.
  by destruct e as [[w h] | | |].
Qed.

Lemma length_frame_calls (b : gmap string Numpy.matrix) (events : list event) :
  length (concat (map (frame_calls b) events))
  = (length (List.filter is_resize_event events)
     + 2 * length (List.filter is_draw_event events))%nat.
Proof.
  induction events as [| e events IH]; [reflexivity |].
  cbn [map concat]. rewrite length_app, IH.
  destruct e as [[w h] | | |];
    cbn [List.filter is_resize_event is_draw_event frame_calls length]; lia.
Qed.

(** One call of [on_draw] once the program of the recipe is in place. *)
Lemma on_draw_recipe (b : gmap string Numpy.matrix) (cs : list Gloo.call) (e : event) :
  is_Some (b !! "a_position") →
  call_function on_draw [VEvent e] (State (Some (Gloo.MkProgram vertex fragment b)) cs)
  = (inr tt, State (Some (Gloo.MkProgram vertex fragment b))
                   (cs ++ [Gloo.Clear white; Gloo.DrawArrays Gloo.line_strip b])).
Proof.
  intros Hb. unfold call_function. cbn [on_draw fn_params fn_body length].
  rewrite decide_True by reflexivity.
  unfold bind at 1. unfold clear, emit. cbn [program calls].
  rewrite (draw_bound _ _ _ Hb). by rewrite <- app_assoc.
Qed.

(** The script on the sample inputs, by evaluation. *)
Lemma sample_started :
  started sample_driver sample_rng recipe_canvas (recipe_state sample_rng).
Proof. reflexivity. Qed.

(** * The claims *)

(** C1. Constructing a program from two source texts fails with
    [CompileError] exactly when the driver finds the syntax of one of
    them invalid; [draw] fails with [RuntimeError] when an attribute the
    shaders reference is unbound; and when the recipe's two sources are
    valid, construction succeeds, a draw with [a_position] bound succeeds
    under every topology, and the whole script with its event loop ends
    without an exception, whatever events are delivered. *)
Theorem C1_program_errors (glsl_ok : string → bool) (g : Numpy.rng) :
  (∀ v f s, (Program_new glsl_ok v f s).1 = inl CompileError
            ↔ glsl_ok v = false ∨ glsl_ok f = false)
  ∧ (∀ p mode cs a,
       a ∈ Gloo.referenced p → Gloo.bound p !! a.1 = None →
       (draw mode (State (Some p) cs)).1 = inl RuntimeError)
  ∧ (glsl_ok vertex = true → glsl_ok fragment = true →
     (∀ s, (Program_new glsl_ok vertex fragment s).1
           = inr (Gloo.MkProgram vertex fragment ∅))
     ∧ (∀ mode b cs,
          is_Some (b !! "a_position") →
          (draw mode (State (Some (Gloo.MkProgram vertex fragment b)) cs)).1 = inr tt)
     ∧ (∀ events, (main glsl_ok g events boot).1 = inr tt)).
Proof.
  split; [| split].
  - intros v f s. destruct (glsl_ok v && glsl_ok f) eqn:Hok.
    + apply andb_true_iff in Hok as [Hv Hf].
      rewrite (Program_new_accepts _ _ _ _ Hv Hf). cbn [fst].
      split; [discriminate | intros [H | H]; congruence].
    + rewrite (Program_new_rejects _ _ _ _ Hok). cbn [fst].
      split; [intros _ | reflexivity].
      by apply andb_false_iff in Hok.
  - intros p mode cs a Hin Hnone. by rewrite (draw_unbound _ _ _ _ Hin Hnone).
  - intros Hv Hf. split; [| split].
    + intros s. by rewrite (Program_new_accepts _ _ _ _ Hv Hf).
    + intros mode b cs Hb. by rewrite (draw_bound _ _ _ Hb).
    + intros events. by rewrite (main_started _ _ _ Hv Hf).
Qed.

Lemma C1_program_errors_witness :
  sample_driver vertex = true ∧ sample_driver fragment = true
  ∧ (main sample_driver sample_rng sample_events boot).1 = inr tt.
Proof.
  split; [vm_compute; reflexivity |]. split; [vm_compute; reflexivity |].
  destruct (C1_program_errors sample_driver sample_rng) as (_ & _ & H).
  destruct H as (_ & _ & H); [vm_compute; reflexivity | vm_compute; reflexivity |].
  apply H.
Defined.

(** C2. Every vertex of the buffer bound to [a_position] has both
    components in [-1, 1]: every value of [linspace(-1.0, +1.0, 1000)]
    and every value of [uniform(-0.5, +0.5, 1000)] lies in that
    interval, and the rows of the bound buffer pair them up. *)
Theorem C2_vertices_in_ndc (glsl_ok : string → bool) (g : Numpy.rng)
    (c : canvas) (s : state) :
  started glsl_ok g c s →
  Forall (λ x, -1 <= x ∧ x <= 1) (Numpy.v_data (Numpy.linspace (-1) 1 1000))
  ∧ Forall (λ y, -1 <= y ∧ y <= 1)
           (Numpy.v_data (Numpy.uniform (-(1 # 2)) (1 # 2) 1000 g))
  ∧ ∃ p buf, program s = Some p ∧ Gloo.bound p !! "a_position" = Some buf
             ∧ Forall in_ndc (Numpy.m_rows buf).
Proof.
  intros (_ & _ & _ & ->)%started_inv.
  assert (Forall (λ x, -1 <= x ∧ x <= 1) (Numpy.v_data (Numpy.linspace (-1) 1 1000)))
    as Hx by (apply linspace_bounds; discriminate).
  assert (Forall (λ y, -1 <= y ∧ y <= 1)
                 (Numpy.v_data (Numpy.uniform (-(1 # 2)) (1 # 2) 1000 g))) as Hy.
  { eapply Forall_impl; [apply uniform_bounds; discriminate |].
    intros y [Hlo Hhi]. split; lra. }
  split; [exact Hx |]. split; [exact Hy |].
  exists (recipe_program g), (a_position_data g).
  split; [reflexivity |]. split; [apply a_position_bound |].
  unfold a_position_data. cbn [Numpy.m_rows]. by apply columns_in_ndc.
Qed.

Lemma C2_vertices_in_ndc_witness :
  started sample_driver sample_rng recipe_canvas (recipe_state sample_rng)
  ∧ Forall in_ndc (Numpy.m_rows (a_position_data sample_rng)).
Proof.
  pose proof sample_started as Hs.
  split; [exact Hs |].
  destruct (C2_vertices_in_ndc _ _ _ _ Hs) as (_ & _ & p & buf & Hp & Hb & Hrows).
  injection Hp as <-. rewrite a_position_bound in Hb. injection Hb as <-.
  exact Hrows.
Defined.

(** C3. Every call of [on_draw] issues one draw with the ['line_strip']
    topology over the buffer bound to [a_position], so a run issues one
    such draw for each draw event and no other.  The draw consumes the
    1000 vertices in buffer order.  Under ['line_strip'] N vertices give
    N - 1 segments (none for an empty buffer), the i-th of them joining
    vertex i to vertex i + 1; so once a draw event has been delivered
    the surface holds the 999 segments of the strip, the i-th joining
    vertex i to vertex i + 1 of the buffer. *)
Theorem C3_line_strip (glsl_ok : string → bool) (g : Numpy.rng)
    (c : canvas) (s : state) (events : list event) :
  started glsl_ok g c s →
  (∀ vs : list GLSL.vec4,
     length (Gloo.assemble Gloo.line_strip vs) = (length vs - 1)%nat
     ∧ ∀ i a b, vs !! i = Some a → vs !! S i = Some b →
                Gloo.assemble Gloo.line_strip vs !! i = Some (Gloo.Segment a b))
  ∧ ∃ p buf,
      program s = Some p ∧ Gloo.bound p !! "a_position" = Some buf
      ∧ length (Numpy.m_rows buf) = 1000%nat
      ∧ Gloo.vertex_stage (Gloo.bound p)
        = map (λ row, GLSL.vertex_main (Gloo.fetch_vec2 row)) (Numpy.m_rows buf)
      ∧ (∀ e s0,
           program s0 = Some p →
           call_function on_draw [VEvent e] s0
           = (inr tt,
              State (Some p)
                    (calls s0 ++ [Gloo.Clear white;
                                  Gloo.DrawArrays Gloo.line_strip (Gloo.bound p)])))
      ∧ length (List.filter is_draw_call (calls (run c events s).2))
        = length (List.filter is_draw_event events)
      ∧ (∀ mode attribs,
           Gloo.DrawArrays mode attribs ∈ calls (run c events s).2 →
           mode = Gloo.line_strip
           ∧ attribs = Gloo.bound p
           ∧ Gloo.vertex_stage attribs
             = map (λ row, GLSL.vertex_main (Gloo.fetch_vec2 row)) (Numpy.m_rows buf)
           ∧ length (Gloo.vertex_stage attribs) = 1000%nat
           ∧ length (Gloo.assemble mode (Gloo.vertex_stage attribs)) = 999%nat)
      ∧ (existsb is_draw_event events = true →
         Gloo.picture (surface c events s)
         = map (λ pr, (pr, GLSL.fragment_main))
               (Gloo.assemble Gloo.line_strip (Gloo.vertex_stage (Gloo.bound p)))
         ∧ length (Gloo.picture (surface c events s)) = 999%nat
         ∧ ∀ i a b,
             Gloo.vertex_stage (Gloo.bound p) !! i = Some a →
             Gloo.vertex_stage (Gloo.bound p) !! S i = Some b →
             Gloo.picture (surface c events s) !! i
             = Some (Gloo.Segment a b, GLSL.fragment_main)).
Proof.
  intros (_ & _ & -> & ->)%started_inv. split.
  - intros vs. cbn [Gloo.assemble]. split; [apply length_strip |].
    intros i a b. apply lookup_strip.
  - exists (recipe_program g), (a_position_data g).
    assert (Gloo.vertex_stage (Gloo.bound (recipe_program g))
            = map (λ row, GLSL.vertex_main (Gloo.fetch_vec2 row))
                  (Numpy.m_rows (a_position_data g))) as Hstage
      by (unfold Gloo.vertex_stage; by rewrite a_position_bound).
    split; [reflexivity |]. split; [apply a_position_bound |].
    split; [apply length_a_position_data |]. split; [exact Hstage |].
    split; [| split; [| split]].
    + intros e [p0 cs] Hp0. cbn [program] in Hp0. subst p0.
      unfold recipe_program. cbn [Gloo.bound calls]. apply on_draw_recipe.
      rewrite lookup_insert_eq. by eexists.
    + rewrite run_started. cbn [snd calls recipe_state].
      destruct (count_frame_calls (Gloo.bound (recipe_program g)) events)
        as (_ & _ & _ & _ & Hdraws).
      cbv zeta in Hdraws. by rewrite List.filter_app, length_app, Hdraws.
    + intros mode attribs [-> ->]%run_draws.
      split; [reflexivity |]. split; [reflexivity |]. split; [exact Hstage |].
      split; [apply length_vertex_stage |].
      cbn [Gloo.assemble]. by rewrite length_strip, length_vertex_stage.
    + intros Hdraw. rewrite surface_recipe, frames_picture, Hdraw.
      split; [reflexivity |]. split; [apply length_frame_picture |].
      intros i a b Ha Hb. unfold frame_picture. cbn [Gloo.assemble].
      by rewrite lookup_map, (lookup_strip _ _ _ _ Ha Hb).
Qed.

Lemma C3_line_strip_witness :
  started sample_driver sample_rng recipe_canvas (recipe_state sample_rng)
  ∧ existsb is_draw_event sample_events = true
  ∧ length (List.filter is_draw_call
              (calls (run recipe_canvas sample_events (recipe_state sample_rng)).2))
    = 2%nat
  ∧ length (Gloo.picture (surface recipe_canvas sample_events (recipe_state sample_rng)))
    = 999%nat.
Proof.
  pose proof sample_started as Hs.
  assert (existsb is_draw_event sample_events = true) as Hd by reflexivity.
  split; [exact Hs |]. split; [exact Hd |].
  destruct (C3_line_strip _ _ _ _ sample_events Hs)
    as (_ & p & buf & _ & _ & _ & _ & _ & Hcount & _ & Hsurface).
  split; [exact Hcount |]. exact (proj1 (proj2 (Hsurface Hd))).
Defined.

(** C4. The array bound to [a_position] is the value of
    [np.c_[linspace(-1.0, +1.0, 1000), uniform(-0.5, +0.5, 1000)]]: its
    dtype is float and its shape is (1000, 2), that is 1000 rows of
    exactly 2 components each. *)
Theorem C4_shape (glsl_ok : string → bool) (g : Numpy.rng) (c : canvas) (s : state) :
  started glsl_ok g c s →
  ∃ p buf,
    program s = Some p ∧ Gloo.bound p !! "a_position" = Some buf
    ∧ Numpy.c_ (Numpy.linspace (-1) 1 1000) (Numpy.uniform (-(1 # 2)) (1 # 2) 1000 g)
      = inr buf
    ∧ Numpy.m_dtype buf = Numpy.float64
    ∧ Numpy.has_shape buf 1000 2 = true
    ∧ length (Numpy.m_rows buf) = 1000%nat
    ∧ Forall (λ row, length row = 2%nat) (Numpy.m_rows buf).
Proof.
  intros (_ & _ & _ & ->)%started_inv.
  exists (recipe_program g), (a_position_data g).
  assert (Forall (λ row, length row = 2%nat) (Numpy.m_rows (a_position_data g))) as Hrows
    by apply rows_of_columns.
  split; [reflexivity |]. split; [apply a_position_bound |].
  split; [apply c__recipe |]. split; [reflexivity |].
  split; [| split; [apply length_a_position_data | exact Hrows]].
  apply has_shape_spec. split; [apply length_a_position_data | exact Hrows].
Qed.

Lemma C4_shape_witness :
  started sample_driver sample_rng recipe_canvas (recipe_state sample_rng)
  ∧ Numpy.has_shape (a_position_data sample_rng) 1000 2 = true.
Proof.
  pose proof sample_started as Hs.
  split; [exact Hs |].
  destruct (C4_shape _ _ _ _ Hs) as (p & buf & Hp & Hb & _ & _ & Hshape & _).
  injection Hp as <-. rewrite a_position_bound in Hb. injection Hb as <-.
  exact Hshape.
Defined.

(** C5. The only attribute the shaders declare is [a_position], of type
    [vec2], which takes 2 components per vertex, and the buffer bound to
    it has exactly 2 columns: every attribute the shaders reference is
    bound to rows with as many components as its type.  Binding any
    1000 x 2 array to [a_position] does not raise, and an array with a
    row of another length is refused, so no partial binding exists. *)
Theorem C5_binding_total (glsl_ok : string → bool) (g : Numpy.rng)
    (c : canvas) (s : state) :
  started glsl_ok g c s →
  ∃ p buf,
    program s = Some p
    ∧ Gloo.referenced p = [("a_position", "vec2")]
    ∧ GLSL.components "vec2" = Some 2%nat
    ∧ Gloo.bound p !! "a_position" = Some buf
    ∧ Numpy.has_shape buf 1000 2 = true
    ∧ (∀ name ty,
         (name, ty) ∈ Gloo.referenced p →
         ∃ data n, Gloo.bound p !! name = Some data ∧ GLSL.components ty = Some n
                   ∧ Forall (λ row, length row = n) (Numpy.m_rows data))
    ∧ (∀ b cs data,
         Numpy.has_shape data 1000 2 = true →
         (setitem "a_position" data
                  (State (Some (Gloo.MkProgram vertex fragment b)) cs)).1 = inr tt)
    ∧ (∀ b cs data,
         ¬ Forall (λ row, length row = 2%nat) (Numpy.m_rows data) →
         (setitem "a_position" data
                  (State (Some (Gloo.MkProgram vertex fragment b)) cs)).1 = inl ValueError).
Proof.
  intros (_ & _ & _ & ->)%started_inv.
  exists (recipe_program g), (a_position_data g).
  assert (Forall (λ row, length row = 2%nat) (Numpy.m_rows (a_position_data g))) as Hrows
    by apply rows_of_columns.
  split; [reflexivity |]. split; [apply referenced_recipe |].
  split; [reflexivity |]. split; [apply a_position_bound |].
  split; [| split; [| split]].
  - apply has_shape_spec. split; [apply length_a_position_data | exact Hrows].
  - intros name ty Hin. unfold recipe_program in Hin. rewrite referenced_recipe in Hin.
    apply list_elem_of_singleton in Hin. simplify_eq.
    exists (a_position_data g), 2%nat.
    split; [apply a_position_bound |]. split; [reflexivity | exact Hrows].
  - intros b cs data [_ Hdata]%has_shape_spec.
    by rewrite (setitem_a_position _ _ _ Hdata).
  - intros b cs data Hdata. by rewrite (setitem_partial _ _ _ Hdata).
Qed.

Lemma C5_binding_total_witness :
  started sample_driver sample_rng recipe_canvas (recipe_state sample_rng)
  ∧ Gloo.referenced (recipe_program sample_rng) = [("a_position", "vec2")]
  ∧ Numpy.has_shape (a_position_data sample_rng) 1000 2 = true.
Proof.
  pose proof sample_started as Hs.
  split; [exact Hs |].
  destruct (C5_binding_total _ _ _ _ Hs) as (p & buf & Hp & Hr & _ & Hb & Hshape & _).
  injection Hp as <-. rewrite a_position_bound in Hb. injection Hb as <-.
  by split.
Defined.

(** The two callbacks leave the global [program], and with it every
    binding, as they found it, whatever they are called with. *)
Lemma on_resize_keeps_program (args : list value) (s : state) :
  program (call_function on_resize args s).2 = program s.
Proof.
  unfold call_function. case_decide; [| reflexivity].
  destruct args as [| v [| ? ?]]; [reflexivity | | reflexivity].
  cbn [on_resize fn_body]. unfold bind.
  destruct v as [n | [size | | |]]; reflexivity.
Qed.

Lemma on_draw_keeps_program (args : list value) (s : state) :
  program (call_function on_draw args s).2 = program s.
Proof.
  unfold call_function. case_decide; [| reflexivity].
  destruct args as [| v [| ? ?]]; [reflexivity | | reflexivity].
  cbn [on_draw fn_body]. unfold bind at 1. unfold clear, emit.
  unfold draw, bind, get_program. cbn [program].
  destruct (program s) as [p |]; [| reflexivity].
  destruct (forallb _ _); reflexivity.
Qed.

(** C6. Once the array is assigned to [program['a_position']], nothing
    changes it: each call of [on_resize] and of [on_draw] leaves the
    program and its bindings as they were; over any sequence of events
    the program is unchanged, no further upload is issued, and every
    draw carries the same buffer of 1000 vertices. *)
Theorem C6_buffer_immutable (glsl_ok : string → bool) (g : Numpy.rng)
    (c : canvas) (s : state) (events : list event) :
  started glsl_ok g c s →
  (∀ args s0, program (call_function on_resize args s0).2 = program s0)
  ∧ (∀ args s0, program (call_function on_draw args s0).2 = program s0)
  ∧ program (run c events s).2 = program s
  ∧ (∀ name data,
       Gloo.Upload name data ∈ calls (run c events s).2 →
       Gloo.Upload name data ∈ calls s)
  ∧ ∃ p buf,
      program s = Some p ∧ Gloo.bound p !! "a_position" = Some buf
      ∧ length (Numpy.m_rows buf) = 1000%nat
      ∧ ∀ mode attribs,
          Gloo.DrawArrays mode attribs ∈ calls (run c events s).2 →
          attribs !! "a_position" = Some buf.
Proof.
  intros (_ & _ & -> & ->)%started_inv.
  split; [apply on_resize_keeps_program |].
  split; [apply on_draw_keeps_program |].
  split; [by rewrite run_started |]. split.
  - intros name data. rewrite run_started. cbn [snd calls].
    rewrite elem_of_app. intros [H | H]; [exact H |].
    apply frame_calls_elem in H as [(w & h & H) | [H | H]]; discriminate.
  - exists (recipe_program g), (a_position_data g).
    split; [reflexivity |]. split; [apply a_position_bound |].
    split; [apply length_a_position_data |].
    intros mode attribs [_ ->]%run_draws. apply a_position_bound.
Qed.

Lemma C6_buffer_immutable_witness :
  started sample_driver sample_rng recipe_canvas (recipe_state sample_rng)
  ∧ program (run recipe_canvas sample_events (recipe_state sample_rng)).2
    = program (recipe_state sample_rng).
Proof.
  pose proof sample_started as Hs.
  split; [exact Hs |].
  destruct (C6_buffer_immutable _ _ _ _ sample_events Hs) as (_ & _ & H & _).
  exact H.
Defined.

(** C7. The texts handed to [gloo.Program] are the literals [vertex] and
    [fragment] themselves: the first command of every run is the
    compilation of exactly these two strings, no other text is ever
    compiled, and the program that results owns the same two strings. *)
Theorem C7_sources_verbatim (glsl_ok : string → bool) (g : Numpy.rng)
    (events : list event) :
  head (calls (main glsl_ok g events boot).2) = Some (Gloo.Compile vertex fragment)
  ∧ (∀ v f, Gloo.Compile v f ∈ calls (main glsl_ok g events boot).2 →
            v = vertex ∧ f = fragment)
  ∧ (∀ p, program (main glsl_ok g events boot).2 = Some p →
          Gloo.vert p = vertex ∧ Gloo.frag p = fragment).
Proof.
  destruct (glsl_ok vertex && glsl_ok fragment) eqn:Hok.
  - apply andb_true_iff in Hok as [Hv Hf]. rewrite (main_started _ _ _ Hv Hf).
    cbn [snd calls program recipe_state app head].
    split; [reflexivity |]. split.
    + intros v f. rewrite elem_of_cons. intros [H | H]; [by simplify_eq |].
      apply elem_of_cons in H as [H | H]; [discriminate |].
      apply frame_calls_elem in H as [(w & h & H) | [H | H]]; discriminate.
    + intros p Hp. by simplify_eq.
  - rewrite (main_rejected _ _ _ Hok). cbn [snd calls program head].
    split; [reflexivity |]. split.
    + intros v f H. apply list_elem_of_singleton in H. by simplify_eq.
    + intros p Hp. discriminate.
Qed.

Lemma C7_sources_verbatim_witness :
  program (main sample_driver sample_rng sample_events boot).2
  = Some (recipe_program sample_rng)
  ∧ Gloo.vert (recipe_program sample_rng) = vertex
  ∧ Gloo.frag (recipe_program sample_rng) = fragment.
Proof.
  assert (program (main sample_driver sample_rng sample_events boot).2
          = Some (recipe_program sample_rng)) as Hp
    by (rewrite main_started; reflexivity).
  split; [exact Hp |].
  destruct (C7_sources_verbatim sample_driver sample_rng sample_events) as (_ & _ & H).
  exact (H _ Hp).
Defined.

(** C9. The vertex stage passes the coordinates through: for the input
    (x, y) the shader writes the position (x, y, 0.0, 1.0), and the i-th
    position the stage produces is that of the i-th row of the buffer
    bound to [a_position]. *)
Theorem C9_vertex_identity :
  (∀ x y, GLSL.vertex_main (GLSL.Vec2 x y) = GLSL.Vec4 x y 0 1)
  ∧ (∀ (attribs : gmap string Numpy.matrix) buf i x y,
       attribs !! "a_position" = Some buf →
       Numpy.m_rows buf !! i = Some [x; y] →
       Gloo.vertex_stage attribs !! i = Some (GLSL.Vec4 x y 0 1)).
Proof.
  split; [reflexivity |].
  intros attribs buf i x y Hb Hrow. unfold Gloo.vertex_stage.
  by rewrite Hb, lookup_map, Hrow.
Qed.

Lemma C9_vertex_identity_witness :
  Gloo.vertex_stage {["a_position" := Numpy.Matrix Numpy.float64 [[1 # 2; -1 # 3]]]} !! 0%nat
  = Some (GLSL.Vec4 (1 # 2) (-1 # 3) 0 1).
Proof.
  apply (proj2 C9_vertex_identity _ (Numpy.Matrix Numpy.float64 [[1 # 2; -1 # 3]]));
    vm_compute; reflexivity.
Defined.

(** ** Order of the commands within a frame *)

Lemma draws_after_clear_frame (b : gmap string Numpy.matrix) (e : event)
    (cs : list Gloo.call) :
  draws_after_clear cs → draws_after_clear (cs ++ frame_calls b e).
Proof.
  intros Hcs i mode attribs Hi. rewrite lookup_app in Hi.
  destruct (cs !! i) as [x |] eqn:Hx.
  - simplify_eq. destruct (Hcs _ _ _ Hx) as (j & -> & Hj).
    exists j. split; [reflexivity |]. by rewrite lookup_app, Hj.
  - apply lookup_ge_None in Hx.
    destruct e as [[w h] | | |]; cbn [frame_calls] in Hi |- *.
    + destruct (i - length cs)%nat as [| k]; [discriminate | destruct k; discriminate].
    + destruct (i - length cs)%nat as [| [| k]] eqn:Hk; [discriminate | | discriminate].
      exists (length cs). split; [lia |].
      rewrite lookup_app, (proj2 (lookup_ge_None cs (length cs))) by lia.
      by rewrite Nat.sub_diag.
    + destruct (i - length cs)%nat; discriminate.
    + destruct (i - length cs)%nat; discriminate.
Qed.

Lemma draws_after_clear_frames (b : gmap string Numpy.matrix) (events : list event)
    (cs : list Gloo.call) :
  draws_after_clear cs → draws_after_clear (cs ++ concat (map (frame_calls b) events)).
Proof.
  revert cs. induction events as [| e events IH]; intros cs Hcs; cbn [map concat].
  - by rewrite app_nil_r.
  - rewrite app_assoc. by apply IH, draws_after_clear_frame.
Qed.

Lemma run_draws_after_clear (g : Numpy.rng) (events : list event) :
  draws_after_clear (calls (run recipe_canvas events (recipe_state g)).2).
Proof.
  rewrite run_started. cbn [snd calls]. apply draws_after_clear_frames.
  intros i mode attribs Hi. cbn [recipe_state calls] in Hi.
  destruct i as [| [| i]]; discriminate.
Qed.

Lemma render_snoc (cs : list Gloo.call) (c : Gloo.call) :
  Gloo.render (cs ++ [c]) = Gloo.exec (Gloo.render cs) c.
Proof. unfold Gloo.render. by rewrite fold_left_app. Qed.

(** The surface right after a draw that follows a clear: the clear's
    colour behind the primitives of that draw alone. *)
Lemma render_frame (cs : list Gloo.call) (j : nat) (color : GLSL.vec4)
    (mode : Gloo.topology) (attribs : gmap string Numpy.matrix) :
  cs !! j = Some (Gloo.Clear color) →
  cs !! S j = Some (Gloo.DrawArrays mode attribs) →
  Gloo.background (Gloo.render (take (S (S j)) cs)) = Some color
  ∧ Gloo.picture (Gloo.render (take (S (S j)) cs))
    = map (λ pr, (pr, GLSL.fragment_main)) (Gloo.assemble mode (Gloo.vertex_stage attribs)).
Proof.
  intros Hj HSj.
  rewrite (take_S_r _ _ _ HSj), (take_S_r _ _ _ Hj), !render_snoc.
  split; reflexivity.
Qed.

(** What one call of [on_draw] adds to the commands. *)
Lemma on_draw_calls (e : event) (s : state) :
  ∃ rest,
    calls (call_function on_draw [VEvent e] s).2 = calls s ++ Gloo.Clear white :: rest
    ∧ (rest = [] ∨ ∃ attribs, rest = [Gloo.DrawArrays Gloo.line_strip attribs]).
Proof.
  unfold call_function. cbn [on_draw fn_params fn_body length].
  rewrite decide_True by reflexivity.
  unfold bind at 1. unfold clear, emit.
  unfold draw, bind, get_program. cbn [program calls].
  destruct (program s) as [p |].
  - destruct (forallb _ _).
    + exists [Gloo.DrawArrays Gloo.line_strip (Gloo.bound p)].
      unfold emit. cbn [snd calls]. rewrite <- app_assoc.
      split; [reflexivity |]. right. by eexists.
    + exists []. split; [reflexivity | by left].
  - exists []. split; [reflexivity | by left].
Qed.

(** C10. Each call of [on_draw] first clears the canvas to opaque white
    (1, 1, 1, 1) and only then, if at all, issues its one draw; in any
    run of the recipe every draw command comes immediately after such a
    clear, so that right after the draw the surface shows a white
    background and the primitives of that frame alone. *)
Theorem C10_clear_before_draw (glsl_ok : string → bool) (g : Numpy.rng)
    (c : canvas) (s : state) (events : list event) :
  started glsl_ok g c s →
  (∀ e s0, ∃ rest,
     calls (call_function on_draw [VEvent e] s0).2
     = calls s0 ++ Gloo.Clear (GLSL.Vec4 1 1 1 1) :: rest
     ∧ (rest = [] ∨ ∃ attribs, rest = [Gloo.DrawArrays Gloo.line_strip attribs]))
  ∧ (∀ i mode attribs,
       calls (run c events s).2 !! i = Some (Gloo.DrawArrays mode attribs) →
       ∃ j, i = S j
            ∧ calls (run c events s).2 !! j = Some (Gloo.Clear (GLSL.Vec4 1 1 1 1))
            ∧ Gloo.background (Gloo.render (take (S i) (calls (run c events s).2)))
              = Some (GLSL.Vec4 1 1 1 1)
            ∧ Gloo.picture (Gloo.render (take (S i) (calls (run c events s).2)))
              = map (λ pr, (pr, GLSL.fragment_main))
                    (Gloo.assemble mode (Gloo.vertex_stage attribs))).
Proof.
  intros (_ & _ & -> & ->)%started_inv. split; [apply on_draw_calls |].
  intros i mode attribs Hi.
  destruct (run_draws_after_clear g events _ _ _ Hi) as (j & -> & Hj).
  exists j. split; [reflexivity |]. split; [exact Hj |].
  exact (render_frame _ _ _ _ _ Hj Hi).
Qed.

Lemma C10_clear_before_draw_witness :
  started sample_driver sample_rng recipe_canvas (recipe_state sample_rng)
  ∧ calls (run recipe_canvas sample_events (recipe_state sample_rng)).2 !! 4%nat
    = Some (Gloo.DrawArrays Gloo.line_strip (Gloo.bound (recipe_program sample_rng)))
  ∧ calls (run recipe_canvas sample_events (recipe_state sample_rng)).2 !! 3%nat
    = Some (Gloo.Clear (GLSL.Vec4 1 1 1 1)).
Proof.
  pose proof sample_started as Hs.
  assert (calls (run recipe_canvas sample_events (recipe_state sample_rng)).2 !! 4%nat
          = Some (Gloo.DrawArrays Gloo.line_strip (Gloo.bound (recipe_program sample_rng))))
    as Hi by (rewrite run_started; reflexivity).
  split; [exact Hs |]. split; [exact Hi |].
  destruct (C10_clear_before_draw _ _ _ _ sample_events Hs) as [_ H].
  destruct (H _ _ _ Hi) as (j & Hj & Hclear & _).
  injection Hj as <-. exact Hclear.
Defined.

(** ** The callbacks as the canvas calls them *)

Lemma for_each_one {A} (f : A → M unit) (a : A) (s : state) :
  for_each f [a] s = f a s.
Proof.
  cbn [for_each]. unfold bind, ret.
  destruct (f a s) as [[e | []] s']; reflexivity.
Qed.

Lemma on_resize_event (w h : Z) (s : state) :
  call_function on_resize [VEvent (ResizeEvent (w, h))] s
  = (inr tt, State (program s) (calls s ++ [Gloo.Viewport 0 0 w h])).
Proof. reflexivity. Qed.

Lemma wrong_arity (f : pyfunc) (args : list value) (s : state) :
  length args ≠ length (fn_params f) → call_function f args s = (inl TypeError, s).
Proof. intros H. unfold call_function. by rewrite decide_False. Qed.

(** C8, as stated, fails: neither callback has the claimed parameters.
    [on_resize] has one parameter, not two, and [on_draw] has one, not
    none, so the calls [on_resize(800, 600)] and [on_draw()] both raise
    [TypeError]. *)
Lemma C8_signatures_counterexample :
  length (fn_params on_resize) ≠ 2%nat
  ∧ length (fn_params on_draw) ≠ 0%nat
  ∧ (call_function on_resize [VInt 800; VInt 600] boot).1 = inl TypeError
  ∧ (call_function on_draw [] boot).1 = inl TypeError.
Proof. repeat split; (discriminate || reflexivity). Qed.

(** C8, amended. The callbacks connected to the canvas are
    [on_resize(event)] and [on_draw(event)]: the canvas calls each with
    one argument, the event object, and a call with any other number of
    arguments raises [TypeError].  [on_resize] reads the new width and
    height from [event.size] and sets the viewport to (0, 0, width,
    height); what [on_draw] does is the same for every event it is
    given. *)
Theorem C8_callback_signatures (glsl_ok : string → bool) (g : Numpy.rng)
    (c : canvas) (s : state) :
  started glsl_ok g c s →
  connections c !! "resize" = Some [on_resize]
  ∧ connections c !! "draw" = Some [on_draw]
  ∧ fn_params on_resize = ["event"]
  ∧ fn_params on_draw = ["event"]
  ∧ (∀ size s0,
       dispatch c (ResizeEvent size) s0
       = call_function on_resize [VEvent (ResizeEvent size)] s0)
  ∧ (∀ s0, dispatch c DrawEvent s0 = call_function on_draw [VEvent DrawEvent] s0)
  ∧ (∀ w h s0,
       call_function on_resize [VEvent (ResizeEvent (w, h))] s0
       = (inr tt, State (program s0) (calls s0 ++ [Gloo.Viewport 0 0 w h])))
  ∧ (∀ e e' s0,
       call_function on_draw [VEvent e] s0 = call_function on_draw [VEvent e'] s0)
  ∧ (∀ args s0,
       length args ≠ 1%nat →
       (call_function on_resize args s0).1 = inl TypeError
       ∧ (call_function on_draw args s0).1 = inl TypeError).
Proof.
  intros (_ & _ & -> & _)%started_inv.
  split; [vm_compute; reflexivity |]. split; [vm_compute; reflexivity |].
  split; [reflexivity |]. split; [reflexivity |].
  split; [| split; [| split; [| split]]].
  - intros size s0. unfold dispatch. by rewrite handlers_recipe, for_each_one.
  - intros s0. unfold dispatch. by rewrite handlers_recipe, for_each_one.
  - intros w h s0. apply on_resize_event.
  - reflexivity.
  - intros args s0 Hlen. by rewrite !wrong_arity.
Qed.

Lemma C8_callback_signatures_witness :
  started sample_driver sample_rng recipe_canvas (recipe_state sample_rng)
  ∧ dispatch recipe_canvas (ResizeEvent (800, 600)%Z) (recipe_state sample_rng)
    = call_function on_resize [VEvent (ResizeEvent (800, 600)%Z)] (recipe_state sample_rng).
Proof.
  pose proof sample_started as Hs.
  split; [exact Hs |].
  destruct (C8_callback_signatures _ _ _ _ Hs) as (_ & _ & _ & _ & H & _).
  apply H.
Defined.

(** * Further properties of the recipe *)

(** X1. After any sequence of events the viewport is the whole canvas at
    its latest size: (0, 0, w, h) for the size (w, h) of the last resize
    event delivered, and unset if none was. *)
Theorem X1_viewport_follows_last_resize (glsl_ok : string → bool) (g : Numpy.rng)
    (c : canvas) (s : state) (events : list event) :
  started glsl_ok g c s →
  Gloo.viewport (surface c events s)
  = (λ size, (0, 0, size.1, size.2)%Z) <$> last_resize events.
Proof.
  intros (_ & _ & -> & ->)%started_inv.
  rewrite surface_recipe, frames_viewport. by destruct (last_resize events).
Qed.

Lemma X1_viewport_follows_last_resize_witness :
  started sample_driver sample_rng recipe_canvas (recipe_state sample_rng)
  ∧ Gloo.viewport
      (surface recipe_canvas
               [ResizeEvent (800, 600)%Z; DrawEvent; ResizeEvent (1024, 768)%Z; MouseMoveEvent]
               (recipe_state sample_rng))
    = Some (0, 0, 1024, 768)%Z.
Proof.
  pose proof sample_started as Hs. split; [exact Hs |].
  exact (X1_viewport_follows_last_resize _ _ _ _
           [ResizeEvent (800, 600)%Z; DrawEvent; ResizeEvent (1024, 768)%Z; MouseMoveEvent] Hs).
Defined.

(** X2. Resizing never changes what is drawn: the background and the
    primitives on the surface after a sequence of events are those after
    the same sequence without its resize events. *)
Theorem X2_resize_keeps_picture (glsl_ok : string → bool) (g : Numpy.rng)
    (c : canvas) (s : state) (events : list event) :
  started glsl_ok g c s →
  Gloo.background (surface c events s)
  = Gloo.background
      (surface c (List.filter (λ e, negb (is_resize_event e)) events) s)
  ∧ Gloo.picture (surface c events s)
    = Gloo.picture
        (surface c (List.filter (λ e, negb (is_resize_event e)) events) s).
Proof.
  intros (_ & _ & -> & ->)%started_inv.
  rewrite !surface_recipe, !frames_background, !frames_picture.
  by rewrite existsb_draw_without_resize.
Qed.

Lemma X2_resize_keeps_picture_witness :
  started sample_driver sample_rng recipe_canvas (recipe_state sample_rng)
  ∧ Gloo.picture (surface recipe_canvas sample_events (recipe_state sample_rng))
    = Gloo.picture
        (surface recipe_canvas [DrawEvent; MouseMoveEvent; DrawEvent]
                 (recipe_state sample_rng)).
Proof.
  pose proof sample_started as Hs. split; [exact Hs |].
  exact (proj2 (X2_resize_keeps_picture _ _ _ _ sample_events Hs)).
Defined.

(** X3. Frames do not pile up.  However many draw events were delivered,
    the surface holds one frame: a white background and the 999 segments
    of the line strip if there was at least one draw event, and no
    background and no primitive if there was none. *)
Theorem X3_one_frame_on_surface (glsl_ok : string → bool) (g : Numpy.rng)
    (c : canvas) (s : state) (events : list event) :
  started glsl_ok g c s →
  ∃ p,
    program s = Some p
    ∧ (existsb is_draw_event events = true →
       Gloo.background (surface c events s) = Some (GLSL.Vec4 1 1 1 1)
       ∧ Gloo.picture (surface c events s) = frame_picture (Gloo.bound p)
       ∧ length (Gloo.picture (surface c events s)) = 999%nat)
    ∧ (existsb is_draw_event events = false →
       Gloo.background (surface c events s) = None
       ∧ Gloo.picture (surface c events s) = []).
Proof.
  intros (_ & _ & -> & ->)%started_inv.
  exists (recipe_program g). split; [reflexivity |].
  rewrite surface_recipe, frames_background, frames_picture.
  split; intros ->; [| by split].
  split; [reflexivity |]. split; [reflexivity | apply length_frame_picture].
Qed.

Lemma X3_one_frame_on_surface_witness :
  started sample_driver sample_rng recipe_canvas (recipe_state sample_rng)
  ∧ existsb is_draw_event sample_events = true
  ∧ length (Gloo.picture (surface recipe_canvas sample_events (recipe_state sample_rng)))
    = 999%nat.
Proof.
  pose proof sample_started as Hs. split; [exact Hs |].
  assert (existsb is_draw_event sample_events = true) as Hd by reflexivity.
  split; [exact Hd |].
  destruct (X3_one_frame_on_surface _ _ _ _ sample_events Hs) as (p & _ & H & _).
  exact (proj2 (proj2 (H Hd))).
Defined.

(** ** Events the script has no callback for *)




(** X5. A run issues one compilation and one upload, whatever the
    events; each resize event costs one viewport command and each draw
    event one clear and one draw call, and nothing else is issued. *)
Theorem X5_command_counts (glsl_ok : string → bool) (g : Numpy.rng)
    (c : canvas) (s : state) (events : list event) :
  started glsl_ok g c s →
  length (List.filter is_compile_call (calls (run c events s).2)) = 1%nat
  ∧ length (List.filter is_upload_call (calls (run c events s).2)) = 1%nat
  ∧ length (List.filter is_viewport_call (calls (run c events s).2))
    = length (List.filter is_resize_event events)
  ∧ length (List.filter is_clear_call (calls (run c events s).2))
    = length (List.filter is_draw_event events)
  ∧ length (List.filter is_draw_call (calls (run c events s).2))
    = length (List.filter is_draw_event events)
  ∧ length (calls (run c events s).2)
    = (2 + length (List.filter is_resize_event events)
       + 2 * length (List.filter is_draw_event events))%nat.
Proof.
  intros (_ & _ & -> & ->)%started_inv.
  rewrite run_started. cbn [snd calls recipe_state].
  destruct (count_frame_calls (Gloo.bound (recipe_program g)) events)
    as (H1 & H2 & H3 & H4 & H5).
  cbv zeta in H1, H2, H3, H4, H5.
  rewrite !List.filter_app, !length_app, H1, H2, H3, H4, H5, length_frame_calls.
  by repeat split.
Qed.

Lemma X5_command_counts_witness :
  started sample_driver sample_rng recipe_canvas (recipe_state sample_rng)
  ∧ length (calls (run recipe_canvas sample_events (recipe_state sample_rng)).2) = 7%nat.
Proof.
  pose proof sample_started as Hs. split; [exact Hs |].
  destruct (X5_command_counts _ _ _ _ sample_events Hs) as (_ & _ & _ & _ & _ & H).
  exact H.
Defined.

(** X6. The only exception the script and its event loop can raise is
    [CompileError].  When the driver rejects a source the one command
    issued is the compilation: nothing is uploaded or drawn, no callback
    runs whatever events are waiting, and [program] stays unset. *)
Theorem X6_rejected_sources (glsl_ok : string → bool) (g : Numpy.rng)
    (events : list event) :
  ((main glsl_ok g events boot).1 = inr tt
   ∨ (main glsl_ok g events boot).1 = inl CompileError)
  ∧ (glsl_ok vertex && glsl_ok fragment = false →
     main glsl_ok g events boot
     = (inl CompileError, State None [Gloo.Compile vertex fragment])).
Proof.
  split.
  - destruct (glsl_ok vertex && glsl_ok fragment) eqn:Hok.
    + apply andb_true_iff in Hok as [Hv Hf]. left. by rewrite (main_started _ _ _ Hv Hf).
    + right. by rewrite (main_rejected _ _ _ Hok).
  - apply main_rejected.
Qed.

Lemma X6_rejected_sources_witness :
  (λ _ : string, false) vertex && (λ _ : string, false) fragment = false
  ∧ main (λ _, false) sample_rng sample_events boot
    = (inl CompileError, State None [Gloo.Compile vertex fragment]).
Proof.
  split; [reflexivity |].
  apply (proj2 (X6_rejected_sources (λ _, false) sample_rng sample_events)).
  reflexivity.
Defined.

(** ** What a frame shows *)

Lemma elem_of_strip (vs : list GLSL.vec4) (pr : Gloo.primitive) :
  pr ∈ Gloo.strip vs →
  ∃ i a b, vs !! i = Some a ∧ vs !! S i = Some b ∧ pr = Gloo.Segment a b.
Proof.
  induction vs as [| v [| w rest] IH]; intros H.
  - by apply elem_of_nil in H.
  - by apply elem_of_nil in H.
  - change (Gloo.strip (v :: w :: rest))
      with (Gloo.Segment v w :: Gloo.strip (w :: rest)) in H.
    apply elem_of_cons in H as [-> | H].
    + by exists 0%nat, v, w.
    + destruct (IH H) as (i & a & b & Ha & Hb & ->). by exists (S i), a, b.
Qed.

Lemma lookup_linspace (start stop : Q) (num i : nat) (x : Q) :
  Numpy.v_data (Numpy.linspace start stop num) !! i = Some x →
  (i < num)%nat
  ∧ x = start + inject_Z (Z.of_nat i) * ((stop - start) / inject_Z (Z.of_nat num - 1)).
Proof.
  unfold Numpy.linspace. cbn [Numpy.v_data]. rewrite lookup_map. intros H.
  destruct (seq 0 num !! i) as [j |] eqn:Hj; [| discriminate].
  apply lookup_seq in Hj as [-> Hlt]. cbn in H. by simplify_eq.
Qed.

(** The values of [linspace] grow from one index to the next. *)
Lemma linspace_increasing (start stop : Q) (num i : nat) (x x' : Q) :
  start < stop →
  Numpy.v_data (Numpy.linspace start stop num) !! i = Some x →
  Numpy.v_data (Numpy.linspace start stop num) !! S i = Some x' →
  x < x'.
Proof.
  intros Hlt [_ ->]%lookup_linspace [HSi ->]%lookup_linspace.
  assert (0 < (stop - start) / inject_Z (Z.of_nat num - 1)) as Hstep.
  { apply Qlt_shift_div_l.
    - change 0 with (inject_Z 0). rewrite <- Zlt_Qlt. lia.
    - rewrite Qmult_0_l. lra. }
  rewrite Nat2Z.inj_succ. unfold Z.succ. rewrite inject_Z_plus.
  change (inject_Z 1) with 1. lra.
Qed.

Lemma lookup_vertex_stage (g : Numpy.rng) (i : nat) (a : GLSL.vec4) :
  Gloo.vertex_stage (Gloo.bound (recipe_program g)) !! i = Some a →
  ∃ x y,
    Numpy.v_data (Numpy.linspace (-1) 1 1000) !! i = Some x
    ∧ Numpy.v_data (Numpy.uniform (-(1 # 2)) (1 # 2) 1000 g) !! i = Some y
    ∧ a = GLSL.Vec4 x y 0 1.
Proof.
  unfold Gloo.vertex_stage. rewrite a_position_bound, lookup_map.
  unfold a_position_data. cbn [Numpy.m_rows]. rewrite lookup_zip_with.
  destruct (Numpy.v_data (Numpy.linspace (-1) 1 1000) !! i) as [x |]; [| discriminate].
  destruct (Numpy.v_data (Numpy.uniform (-(1 # 2)) (1 # 2) 1000 g) !! i) as [y |];
    [| discriminate].
  intros H. cbn in H. exists x, y. by simplify_eq.
Qed.

(** Whatever is on the surface after a run is a segment of the strip, in
    the colour of the fragment shader, between two consecutive rows of
    the data. *)
Lemma picture_segments (g : Numpy.rng) (events : list event)
    (pr : Gloo.primitive) (col : GLSL.vec4) :
  (pr, col) ∈ Gloo.picture (surface recipe_canvas events (recipe_state g)) →
  col = GLSL.fragment_main
  ∧ ∃ i x y x' y',
      Numpy.v_data (Numpy.linspace (-1) 1 1000) !! i = Some x
      ∧ Numpy.v_data (Numpy.uniform (-(1 # 2)) (1 # 2) 1000 g) !! i = Some y
      ∧ Numpy.v_data (Numpy.linspace (-1) 1 1000) !! S i = Some x'
      ∧ Numpy.v_data (Numpy.uniform (-(1 # 2)) (1 # 2) 1000 g) !! S i = Some y'
      ∧ pr = Gloo.Segment (GLSL.Vec4 x y 0 1) (GLSL.Vec4 x' y' 0 1).
Proof.
  rewrite surface_recipe, frames_picture.
  destruct (existsb is_draw_event events); [| intros H; by apply elem_of_nil in H].
  unfold frame_picture. cbn [Gloo.assemble].
  intros H. apply list_elem_of_In, in_map_iff in H as (pr' & Heq & Hin).
  injection Heq as -> <-. split; [reflexivity |].
  apply list_elem_of_In, elem_of_strip in Hin as (i & a & b & Ha & Hb & ->).
  apply lookup_vertex_stage in Ha as (x & y & Hx & Hy & ->).
  apply lookup_vertex_stage in Hb as (x' & y' & Hx' & Hy' & ->).
  by exists i, x, y, x', y'.
Qed.

(** X7. Nothing of a frame falls outside the canvas: every primitive on
    the surface after a run is a segment whose two end points have
    homogeneous coordinate 1, depth 0, and x and y between -1 and 1, the
    coordinates of the canvas corners. *)
Theorem X7_frame_inside_canvas (glsl_ok : string → bool) (g : Numpy.rng)
    (c : canvas) (s : state) (events : list event) :
  started glsl_ok g c s →
  ∀ pr col,
    (pr, col) ∈ Gloo.picture (surface c events s) →
    ∃ a b,
      pr = Gloo.Segment a b
      ∧ Forall (λ v, GLSL.w4 v = 1 ∧ GLSL.z4 v = 0
                     ∧ (-1 <= GLSL.x4 v ∧ GLSL.x4 v <= 1)
                     ∧ (-1 <= GLSL.y4 v ∧ GLSL.y4 v <= 1)) [a; b].
Proof.
  intros (_ & _ & -> & ->)%started_inv pr col Hin.
  apply picture_segments in Hin as (_ & i & x & y & x' & y' & Hx & Hy & Hx' & Hy' & ->).
  assert (Forall (λ x, -1 <= x ∧ x <= 1) (Numpy.v_data (Numpy.linspace (-1) 1 1000)))
    as Hxs by (apply linspace_bounds; discriminate).
  assert (Forall (λ y, -(1 # 2) <= y ∧ y <= 1 # 2)
                 (Numpy.v_data (Numpy.uniform (-(1 # 2)) (1 # 2) 1000 g)))
    as Hys by (apply uniform_bounds; discriminate).
  pose proof (Forall_lookup_1 _ _ _ _ Hxs Hx) as [? ?].
  pose proof (Forall_lookup_1 _ _ _ _ Hxs Hx') as [? ?].
  pose proof (Forall_lookup_1 _ _ _ _ Hys Hy) as [? ?].
  pose proof (Forall_lookup_1 _ _ _ _ Hys Hy') as [? ?].
  eexists _, _. split; [reflexivity |].
  repeat constructor; cbn [GLSL.x4 GLSL.y4]; lra.
Qed.

Lemma X7_frame_inside_canvas_witness :
  started sample_driver sample_rng recipe_canvas (recipe_state sample_rng)
  ∧ ∀ pr col,
      (pr, col) ∈ Gloo.picture (surface recipe_canvas sample_events (recipe_state sample_rng)) →
      ∃ a b, pr = Gloo.Segment a b ∧ GLSL.w4 a = 1 ∧ GLSL.w4 b = 1.
Proof.
  pose proof sample_started as Hs. split; [exact Hs |].
  intros pr col Hin.
  destruct (X7_frame_inside_canvas _ _ _ _ sample_events Hs pr col Hin)
    as (a & b & Hpr & Hab).
  exists a, b. split; [exact Hpr |].
  inversion Hab as [| ? ? (Ha & _) Hb']. inversion Hb' as [| ? ? (Hb & _) _].
  by split.
Defined.




(** X9. The signal is drawn in black on white: every primitive on the
    surface after a run has the colour (0, 0, 0, 1) the fragment shader
    writes, and whenever the surface holds a primitive its background is
    (1, 1, 1, 1). *)
Theorem X9_black_on_white (glsl_ok : string → bool) (g : Numpy.rng)
    (c : canvas) (s : state) (events : list event) :
  started glsl_ok g c s →
  ∀ pr col,
    (pr, col) ∈ Gloo.picture (surface c events s) →
    col = GLSL.Vec4 0 0 0 1
    ∧ Gloo.background (surface c events s) = Some (GLSL.Vec4 1 1 1 1).
Proof.
  intros (_ & _ & -> & ->)%started_inv pr col Hin.
  split; [by apply picture_segments in Hin as [-> _] |].
  revert Hin. rewrite surface_recipe, frames_picture, frames_background.
  destruct (existsb is_draw_event events); [reflexivity |].
  intros H. by apply elem_of_nil in H.
Qed.

Lemma X9_black_on_white_witness :
  started sample_driver sample_rng recipe_canvas (recipe_state sample_rng)
  ∧ ∀ pr col,
      (pr, col) ∈ Gloo.picture (surface recipe_canvas sample_events (recipe_state sample_rng)) →
      col = GLSL.Vec4 0 0 0 1.
Proof.
  pose proof sample_started as Hs. split; [exact Hs |].
  intros pr col Hin.
  exact (proj1 (X9_black_on_white _ _ _ _ sample_events Hs pr col Hin)).
Defined.

(** ** [on_draw] from an arbitrary state *)

Lemma on_draw_from_any_state (e : event) (s0 : state) :
  call_function on_draw [VEvent e] s0
  = match program s0 with
    | Some p =>
        if forallb (λ a, bool_decide (is_Some (Gloo.bound p !! a.1))) (Gloo.referenced p)
        then (inr tt,
              State (Some p)
                    (calls s0 ++ [Gloo.Clear white;
                                  Gloo.DrawArrays Gloo.line_strip (Gloo.bound p)]))
        else (inl RuntimeError, State (Some p) (calls s0 ++ [Gloo.Clear white]))
    | None => (inl NameError, State None (calls s0 ++ [Gloo.Clear white]))
    end.
Proof.
  unfold call_function. cbn [on_draw fn_params fn_body length].
  rewrite decide_True by reflexivity.
  unfold bind at 1. unfold clear, emit, draw, bind, get_program. cbn [program calls].
  destruct (program s0) as [p |]; [| reflexivity].
  destruct (forallb _ _); [| reflexivity].
  unfold emit. cbn [program calls]. by rewrite <- app_assoc.
Qed.

(** X10. [on_draw] clears before it looks at the program, so it leaves a
    white background from every state, also when the draw fails.  It can
    fail only with [NameError] (the global [program] is unset) or
    [RuntimeError] (an attribute is unbound); then the surface is blank
    and the program is as it was. *)
Theorem X10_failed_draw_leaves_blank_canvas (e : event) (s0 : state) :
  Gloo.background (Gloo.render (calls (call_function on_draw [VEvent e] s0).2))
  = Some (GLSL.Vec4 1 1 1 1)
  ∧ ((call_function on_draw [VEvent e] s0).1 = inr tt
     ∨ (call_function on_draw [VEvent e] s0).1 = inl NameError
     ∨ (call_function on_draw [VEvent e] s0).1 = inl RuntimeError)
  ∧ ((call_function on_draw [VEvent e] s0).1 ≠ inr tt →
     Gloo.picture (Gloo.render (calls (call_function on_draw [VEvent e] s0).2)) = [])
  ∧ (program s0 = None → (call_function on_draw [VEvent e] s0).1 = inl NameError)
  ∧ (∀ p a, program s0 = Some p → a ∈ Gloo.referenced p → Gloo.bound p !! a.1 = None →
            (call_function on_draw [VEvent e] s0).1 = inl RuntimeError).
Proof.
  rewrite on_draw_from_any_state.
  destruct (program s0) as [p |] eqn:Hp.
  - destruct (forallb (λ a, bool_decide (is_Some (Gloo.bound p !! a.1)))
                      (Gloo.referenced p)) eqn:Hall; cbn [fst snd calls].
    + change (calls s0 ++ [Gloo.Clear white; Gloo.DrawArrays Gloo.line_strip (Gloo.bound p)])
        with (calls s0 ++ [Gloo.Clear white] ++ [Gloo.DrawArrays Gloo.line_strip (Gloo.bound p)]).
      rewrite app_assoc, !render_snoc.
      split; [reflexivity |]. split; [by left |]. split; [done |].
      split; [discriminate |].
      intros p' a Hp' Hin Hnone. simplify_eq.
      rewrite forallb_forall in Hall.
      apply list_elem_of_In, Hall, bool_decide_eq_true in Hin.
      rewrite Hnone in Hin. by destruct Hin.
    + rewrite render_snoc.
      split; [reflexivity |]. split; [by right; right |]. split; [reflexivity |].
      split; [discriminate | reflexivity].
  - cbn [fst snd calls]. rewrite render_snoc.
    split; [reflexivity |]. split; [by right; left |]. split; [reflexivity |].
    split; [reflexivity | discriminate].
Qed.

Lemma X10_failed_draw_leaves_blank_canvas_witness :
  program boot = None
  ∧ (call_function on_draw [VEvent DrawEvent] boot).1 = inl NameError.
Proof.
  split; [reflexivity |].
  destruct (X10_failed_draw_leaves_blank_canvas DrawEvent boot) as (_ & _ & _ & H & _).
  apply H. reflexivity.
Defined.

(** ** [on_resize] from an arbitrary state *)



